(** * hook-echo: the echo tool server (main.py, echo/config.py)

    A shallow embedding of the service: the settings object of
    [echo/config.py], and the module-level start-up code and the request
    handlers of [main.py].  Python [str] values are Rocq strings (the UTF-8
    bytes of the text); Python dicts are association lists in insertion
    order; code that raises returns [Err]; module-level and handler code
    runs in a state-and-exception monad over the process state. *)

From Stdlib Require Import String Ascii List Bool Arith ZArith Lia.
From Stdlib Require Import DecimalString.
Import ListNotations.
Open Scope string_scope.

(* ------------------------------------------------------------------ *)
(** * Python values shared by both files *)

Module Py.

(** Exceptions the modelled code can raise, each with the value or the
    name it complains about. *)
Inductive exn : Type :=
| ValueError (what : string)
| TypeError (what : string)
| SettingsError (what : string)
| NameError (what : string)
| AssertionError (what : string).

Inductive result (A : Type) : Type :=
| Ok (a : A)
| Err (e : exn).
Arguments Ok {A} a.
Arguments Err {A} e.

(** [str.upper] and [str.lower].  The code applies them to the level name
    and to setting names.  ASCII letters change case; so do, in [upper],
    the two other letters whose upper case is one ASCII letter, dotless i
    (bytes 196 177) and long s (bytes 197 191).  Every other character is
    kept as it is: Python changes some of them, none into text that occurs
    in a level name or in a setting name, so the results agree wherever
    the code looks such a name up. *)
Definition upper_char (c : ascii) : ascii :=
  let n := nat_of_ascii c in
  if ((97 <=? n) && (n <=? 122))%nat then ascii_of_nat (n - 32) else c.

Definition lower_char (c : ascii) : ascii :=
  let n := nat_of_ascii c in
  if ((65 <=? n) && (n <=? 90))%nat then ascii_of_nat (n + 32) else c.

Fixpoint upper (s : string) : string :=
  match s with
  | EmptyString => EmptyString
  | String c r =>
      match r with
      | String c2 r2 =>
          if ((nat_of_ascii c =? 196) && (nat_of_ascii c2 =? 177))%nat
          then String "I"%char (upper r2)
          else if ((nat_of_ascii c =? 197) && (nat_of_ascii c2 =? 191))%nat
          then String "S"%char (upper r2)
          else String (upper_char c) (upper r)
      | EmptyString => String (upper_char c) EmptyString
      end
  end.

Fixpoint lower (s : string) : string :=
  match s with
  | EmptyString => EmptyString
  | String c r => String (lower_char c) (lower r)
  end.

(** Truthiness of a [str]: [not s] holds exactly for the empty string. *)
Definition truthy (s : string) : bool :=
  match s with EmptyString => false | String _ _ => true end.

(** A Python dict with [str] keys: bindings in insertion order. *)
Definition dict (V : Type) : Type := list (string * V).

Section Dict.
Context {V : Type}.

(** [d.get(k)] *)
Fixpoint dict_get (k : string) (d : dict V) : option V :=
  match d with
  | [] => None
  | (k', v) :: r => if String.eqb k k' then Some v else dict_get k r
  end.

(** [d[k] = v]: an existing key keeps its place, a new key goes last. *)
Fixpoint dict_set (k : string) (v : V) (d : dict V) : dict V :=
  match d with
  | [] => [(k, v)]
  | (k', v') :: r =>
      if String.eqb k k' then (k', v) :: r else (k', v') :: dict_set k v r
  end.

(** [del d[k]] when present, as [d.pop(k, None)] does. *)
Fixpoint dict_del (k : string) (d : dict V) : dict V :=
  match d with
  | [] => []
  | (k', v') :: r =>
      if String.eqb k k' then dict_del k r else (k', v') :: dict_del k r
  end.

(** [d.update(other)] *)
Definition dict_update (d other : dict V) : dict V :=
  fold_left (fun acc kv => dict_set (fst kv) (snd kv) acc) other d.

Definition dict_keys (d : dict V) : list string := map fst d.
End Dict.

Definition mem (k : string) (l : list string) : bool :=
  existsb (String.eqb k) l.

End Py.

(* ------------------------------------------------------------------ *)
(** * echo/config.py *)

Module Config.
Import Py.

(** [class Settings(BaseSettings)] *)
Record Settings : Type := mkSettings {
  APP_NAME : string;
  LOG_LEVEL : string;
  APP_VERSION : string;
  CONTACT_NAME : string;
  CONTACT_URL : string;
  CONTACT_EMAIL : string;
  SERVERS : list (dict string);
  OTEL_EXPORTER_OTLP_ENDPOINT : string
}.

(** The defaults written in the class body. *)
Definition defaults : Settings := {|
  APP_NAME := "Echo Tool Server";
  LOG_LEVEL := "WARN";
  APP_VERSION := "0.1.12";
  CONTACT_NAME := "API Support";
  CONTACT_URL := "https://www.example.com/support";
  CONTACT_EMAIL := "support@example.com";
  SERVERS :=
    [[("url", "http://localhost:8000"); ("description", "Development Server")]];
  OTEL_EXPORTER_OTLP_ENDPOINT := ""
|}.

Definition field_names : list string :=
  ["APP_NAME"; "LOG_LEVEL"; "APP_VERSION"; "CONTACT_NAME"; "CONTACT_URL";
   "CONTACT_EMAIL"; "SERVERS"; "OTEL_EXPORTER_OTLP_ENDPOINT"].

(** What a settings source sees: names mapped to optional text.  The
    process environment always gives text; a dotenv line without [=] gives
    [None]. *)
Definition env_vars : Type := dict (option string).

(** [{k.lower(): v for k, v in vars.items()}]: the settings class keeps the
    default [case_sensitive=False], so names are compared in lower case and
    a later variable replaces an earlier one of the same lowered name. *)
Definition parse_env_vars (vars : list (string * option string)) : env_vars :=
  fold_left (fun acc kv => dict_set (lower (fst kv)) (snd kv) acc) vars [].

(** The lookup of one field in one source: [env_vars.get(name.lower())],
    a [None] value counting as absent. *)
Definition get_field_value (vars : env_vars) (field_name : string)
  : option string :=
  match dict_get (lower field_name) vars with
  | Some (Some v) => Some v
  | _ => None
  end.

(** The two sources [model_config] leaves active: the process environment
    and the file named by [env_file='.env'] ([None] when there is no such
    file, else the pairs read from it). *)
Definition EnvSettingsSource (environ : list (string * string)) : env_vars :=
  parse_env_vars (map (fun kv => (fst kv, Some (snd kv))) environ).

Definition DotEnvSettingsSource
  (dotenv : option (list (string * option string))) : env_vars :=
  match dotenv with
  | None => []
  | Some vars => parse_env_vars vars
  end.

(** Sources in priority order: environment first, then the dotenv file. *)
Definition source_value (environ : list (string * string))
  (dotenv : option (list (string * option string))) (field_name : string)
  : option string :=
  match get_field_value (EnvSettingsSource environ) field_name with
  | Some v => Some v
  | None => get_field_value (DotEnvSettingsSource dotenv) field_name
  end.

Section Construct.
(** [SERVERS] is typed [list[dict[str, str]]]: its text is decoded as
    JSON and validated against that type.  The decoder belongs to the
    settings library; [None] stands for text it rejects. *)
Variable decode_servers : string -> option (list (dict string)).

Definition str_field (environ : list (string * string))
  (dotenv : option (list (string * option string)))
  (field_name : string) (default : string) : string :=
  match source_value environ dotenv field_name with
  | Some v => v
  | None => default
  end.

Definition servers_field (environ : list (string * string))
  (dotenv : option (list (string * option string)))
  : result (list (dict string)) :=
  match source_value environ dotenv "SERVERS" with
  | None => Ok (SERVERS defaults)
  | Some raw =>
      match decode_servers raw with
      | Some l => Ok l
      | None => Err (SettingsError "SERVERS")
      end
  end.

(** [settings = Settings()] *)
Definition Settings_new (environ : list (string * string))
  (dotenv : option (list (string * option string))) : result Settings :=
  match servers_field environ dotenv with
  | Err e => Err e
  | Ok servers =>
      Ok {|
        APP_NAME := str_field environ dotenv "APP_NAME" (APP_NAME defaults);
        LOG_LEVEL := str_field environ dotenv "LOG_LEVEL" (LOG_LEVEL defaults);
        APP_VERSION :=
          str_field environ dotenv "APP_VERSION" (APP_VERSION defaults);
        CONTACT_NAME :=
          str_field environ dotenv "CONTACT_NAME" (CONTACT_NAME defaults);
        CONTACT_URL :=
          str_field environ dotenv "CONTACT_URL" (CONTACT_URL defaults);
        CONTACT_EMAIL :=
          str_field environ dotenv "CONTACT_EMAIL" (CONTACT_EMAIL defaults);
        SERVERS := servers;
        OTEL_EXPORTER_OTLP_ENDPOINT :=
          str_field environ dotenv "OTEL_EXPORTER_OTLP_ENDPOINT"
            (OTEL_EXPORTER_OTLP_ENDPOINT defaults)
      |}
  end.
End Construct.

End Config.

(* ------------------------------------------------------------------ *)
(** * JSON values and [json.dumps] of an event dict *)

Module Json.
Import Py.

#[local] Set Warnings "-register-all".

(** A decoded JSON document, as [json.loads] gives it to the framework: an
    object is the dict built from it, one binding per key. *)
Inductive value : Type :=
| JNull
| JBool (b : bool)
| JInt (n : Z)
| JFloat (repr : string)
| JStr (s : string)
| JList (l : list value)
| JDict (d : list (string * value)).

Definition quote : string := String (ascii_of_nat 34) EmptyString.
Definition newline : ascii := ascii_of_nat 10.

(** One lower-case hexadecimal digit, the lowest of [n]. *)
Definition hex_digit (n : N) : ascii :=
  match String.get (N.to_nat (N.modulo n 16)) "0123456789abcdef" with
  | Some c => c
  | None => "f"%char
  end.

(** ['{0:04x}'.format(n)] for [n < 65536] *)
Definition hex4 (n : N) : string :=
  String (hex_digit (N.shiftr n 12))
    (String (hex_digit (N.shiftr n 8))
       (String (hex_digit (N.shiftr n 4))
          (String (hex_digit n) EmptyString))).

(** The [\uXXXX] escape of a code point, a surrogate pair above the BMP. *)
Definition escape_code_point (n : N) : string :=
  if (n <? 65536)%N then "\u" ++ hex4 n
  else
    let m := (n - 65536)%N in
    "\u" ++ hex4 (N.lor 55296 (N.land (N.shiftr m 10) 1023))
      ++ "\u" ++ hex4 (N.lor 56320 (N.land m 1023)).

(** One character below 128 under [ensure_ascii]: the short escapes of
    [ESCAPE_DCT], printable characters unchanged, the rest as [\u00XX]. *)
Definition escape_ascii (c : ascii) : string :=
  match N_of_ascii c with
  | 92%N => "\\"
  | 34%N => "\" ++ quote
  | 8%N => "\b"
  | 12%N => "\f"
  | 10%N => "\n"
  | 13%N => "\r"
  | 9%N => "\t"
  | n => if ((32 <=? n) && (n <=? 126))%N then String c EmptyString
         else escape_code_point n
  end.

Definition cont_bits (c : ascii) : N := N.land (N_of_ascii c) 63.

(** The escaped text of a [str]: its UTF-8 bytes are decoded to code points
    on the way (a byte that starts no complete sequence is escaped alone). *)
Fixpoint escape_body (s : string) : string :=
  match s with
  | EmptyString => EmptyString
  | String c r =>
      let b := N_of_ascii c in
      if (b <? 128)%N then escape_ascii c ++ escape_body r
      else if ((192 <=? b) && (b <? 224))%N then
        match r with
        | String c2 r2 =>
            escape_code_point
              (N.lor (N.shiftl (N.land b 31) 6) (cont_bits c2))
              ++ escape_body r2
        | _ => escape_code_point b ++ escape_body r
        end
      else if ((224 <=? b) && (b <? 240))%N then
        match r with
        | String c2 (String c3 r3) =>
            escape_code_point
              (N.lor (N.shiftl (N.land b 15) 12)
                 (N.lor (N.shiftl (cont_bits c2) 6) (cont_bits c3)))
              ++ escape_body r3
        | _ => escape_code_point b ++ escape_body r
        end
      else if ((240 <=? b) && (b <? 248))%N then
        match r with
        | String c2 (String c3 (String c4 r4)) =>
            escape_code_point
              (N.lor (N.shiftl (N.land b 7) 18)
                 (N.lor (N.shiftl (cont_bits c2) 12)
                    (N.lor (N.shiftl (cont_bits c3) 6) (cont_bits c4))))
              ++ escape_body r4
        | _ => escape_code_point b ++ escape_body r
        end
      else escape_code_point b ++ escape_body r
  end.

(** [py_encode_basestring_ascii] *)
Definition encode_basestring_ascii (s : string) : string :=
  quote ++ escape_body s ++ quote.

Fixpoint dumps_items (d : dict string) : string :=
  match d with
  | [] => EmptyString
  | [(k, v)] =>
      encode_basestring_ascii k ++ ": " ++ encode_basestring_ascii v
  | (k, v) :: r =>
      encode_basestring_ascii k ++ ": " ++ encode_basestring_ascii v
        ++ ", " ++ dumps_items r
  end.

(** [json.dumps(d)] for a dict of [str] values: one object, the default
    separators, no indentation. *)
Definition dumps (d : dict string) : string :=
  "{" ++ dumps_items d ++ "}".

(** The code points of a text, decoded the way [escape_body] decodes. *)
Fixpoint code_points (s : string) : list N :=
  match s with
  | EmptyString => []
  | String c r =>
      let b := N_of_ascii c in
      if (b <? 128)%N then b :: code_points r
      else if ((192 <=? b) && (b <? 224))%N then
        match r with
        | String c2 r2 =>
            N.lor (N.shiftl (N.land b 31) 6) (cont_bits c2) :: code_points r2
        | _ => b :: code_points r
        end
      else if ((224 <=? b) && (b <? 240))%N then
        match r with
        | String c2 (String c3 r3) =>
            N.lor (N.shiftl (N.land b 15) 12)
              (N.lor (N.shiftl (cont_bits c2) 6) (cont_bits c3))
              :: code_points r3
        | _ => b :: code_points r
        end
      else if ((240 <=? b) && (b <? 248))%N then
        match r with
        | String c2 (String c3 (String c4 r4)) =>
            N.lor (N.shiftl (N.land b 7) 18)
              (N.lor (N.shiftl (cont_bits c2) 12)
                 (N.lor (N.shiftl (cont_bits c3) 6) (cont_bits c4)))
              :: code_points r4
        | _ => b :: code_points r
        end
      else b :: code_points r
  end.

(** A surrogate code point: a [str] may hold one unpaired, and then
    [s.encode("utf-8")] raises. *)
Definition is_surrogate (n : N) : bool := ((55296 <=? n) && (n <=? 57343))%N.

Definition utf8_encodable (s : string) : bool :=
  forallb (fun n => negb (is_surrogate n)) (code_points s).

(** A float is carried by the text Python prints for it; [nan], [inf] and
    [-inf] are the floats that are not finite. *)
Definition finite_float (repr : string) : bool :=
  negb (mem repr ["nan"; "inf"; "-inf"]).

(** Whether [json.dumps(v, ensure_ascii=False, allow_nan=False)
    .encode("utf-8")] returns: no float out of range, no text with an
    unpaired surrogate, keys included. *)
Fixpoint encodable (v : value) : bool :=
  match v with
  | JNull => true
  | JBool _ => true
  | JInt _ => true
  | JFloat repr => finite_float repr
  | JStr s => utf8_encodable s
  | JList l => forallb encodable l
  | JDict d =>
      forallb
        (fun kv : string * value =>
           match kv with
           | (k, x) => utf8_encodable k && encodable x
           end)
        d
  end.

(** Whether a character occurs in a text. *)
Fixpoint occurs (c : ascii) (s : string) : bool :=
  match s with
  | EmptyString => false
  | String c' r => Ascii.eqb c c' || occurs c r
  end.

End Json.

(* ------------------------------------------------------------------ *)
(** * The process state main.py works on *)

Module Runtime.
Import Py Config.

(** A UTC wall-clock reading. *)
Record datetime : Type := mkDatetime {
  year : N; month : N; day : N;
  hour : N; minute : N; second : N; microsecond : N
}.

Fixpoint zeros (n : nat) : string :=
  match n with O => EmptyString | S k => String "0"%char (zeros k) end.

(** [%0<width>d] *)
Definition pad (width : nat) (n : N) : string :=
  let digits := NilEmpty.string_of_uint (N.to_uint n) in
  zeros (width - String.length digits) ++ digits.

(** [datetime.isoformat()] of a naive reading: the fraction is printed
    only when the microseconds are not zero. *)
Definition isoformat (d : datetime) : string :=
  pad 4 (year d) ++ "-" ++ pad 2 (month d) ++ "-" ++ pad 2 (day d)
    ++ "T" ++ pad 2 (hour d) ++ ":" ++ pad 2 (minute d) ++ ":"
    ++ pad 2 (second d)
    ++ (if (microsecond d =? 0)%N then EmptyString
        else "." ++ pad 6 (microsecond d)).

(** [sys.stdout] and [sys.stderr] *)
Inductive Stream : Type := Stdout | Stderr.

(** A [logging.StreamHandler]; every handler in play formats a record as
    its bare message. *)
Record Handler : Type := mkHandler {
  h_stream : Stream;
  h_level : nat
}.

(** The methods of the bound logger. *)
Inductive Method : Type := debug | info | warning | warn | error | critical.

(** One call made on [logger]: the method, the event and the fields. *)
Record LogCall : Type := mkLogCall {
  lc_method : Method;
  lc_event : string;
  lc_fields : dict string
}.

(** OpenTelemetry objects. *)
Record Resource : Type := mkResource { attributes : dict string }.

Inductive SpanExporter : Type := OTLPSpanExporter (endpoint : string).

Inductive SpanProcessor : Type := BatchSpanProcessor (exporter : SpanExporter).

Record TracerProvider : Type := mkTracerProvider {
  resource : Resource;
  span_processors : list SpanProcessor
}.

(** The functions routes are bound to: the three handlers of main.py, the
    metrics view and the documentation views of the framework. *)
Inductive Endpoint : Type :=
| ep_echo | ep_health_check | ep_ready_check
| ep_metrics | ep_openapi | ep_swagger_ui | ep_swagger_ui_redirect | ep_redoc.

Record Route : Type := mkRoute {
  path : string;
  methods : list string;
  operation_id : option string;
  summary : option string;
  tags : list string;
  endpoint : Endpoint
}.

Inductive Middleware : Type :=
| PrometheusInstrumentatorMiddleware.

(** The [FastAPI] object. *)
Record FastAPI : Type := mkFastAPI {
  title : string;
  description : string;
  version : string;
  openapi_tags : list (dict string);
  contact : dict string;
  servers : list (dict string);
  routes : list Route;
  user_middleware : list Middleware;
  _is_instrumented_by_opentelemetry : bool
}.

(** What the process takes from outside: the clock reading at the n-th
    reading, the text the tracebacks module gives at that moment for the
    current stack and for the exception being handled, if one is, and
    whether the constructor of the installed span exporter accepts an
    endpoint (it parses the address and raises on one it cannot read). *)
Record Ambient : Type := mkAmbient {
  clock : nat -> datetime;
  stack_text : nat -> string;
  exc_text : nat -> option string;
  exporter_accepts : string -> bool
}.

(** The state of the process: the module globals of main.py and the state
    of the libraries it configures.  [providers] is the store of tracer
    provider objects ([tracer_provider] refers into it), [exporters] lists
    the span exporters constructed so far, [log_calls] the calls made on
    [logger], [ticks] the number of clock readings taken. *)
Record World : Type := mkWorld {
  ambient : Ambient;
  settings : Settings;
  root_level : nat;
  root_handlers : list Handler;
  stdout : list string;
  stderr : list string;
  ticks : nat;
  log_calls : list LogCall;
  providers : list TracerProvider;
  tracer_provider : option nat;
  exporters : list SpanExporter;
  app : option FastAPI
}.

(** A fresh interpreter after [from config import settings]: the root
    logger is at WARNING and has no handler, nothing else exists yet. *)
Definition fresh (amb : Ambient) (s : Settings) : World := {|
  ambient := amb;
  settings := s;
  root_level := 30;
  root_handlers := [];
  stdout := [];
  stderr := [];
  ticks := 0;
  log_calls := [];
  providers := [];
  tracer_provider := None;
  exporters := [];
  app := None
|}.

(** Code with effects: a result or an exception, and the state after. *)
Definition M (A : Type) : Type := World -> result A * World.

Definition ret {A} (a : A) : M A := fun w => (Ok a, w).

Definition raise {A} (e : exn) : M A := fun w => (Err e, w).

Definition bind {A B} (c : M A) (k : A -> M B) : M B :=
  fun w =>
    match c w with
    | (Ok a, w') => k a w'
    | (Err e, w') => (Err e, w')
    end.

Definition get : M World := fun w => (Ok w, w).

Definition modify (f : World -> World) : M unit := fun w => (Ok tt, f w).

Declare Scope py_scope.
Delimit Scope py_scope with py.
Notation "x <- c ;; k" := (bind c (fun x => k))
  (at level 61, c at next level, right associativity) : py_scope.
Notation "c ;; k" := (bind c (fun _ => k))
  (at level 61, right associativity) : py_scope.
Open Scope py_scope.

(** Field updates. *)
Definition set_root (lvl : nat) (hs : list Handler) (w : World) : World :=
  mkWorld (ambient w) (settings w) lvl hs (stdout w) (stderr w) (ticks w) (log_calls w)
    (providers w) (tracer_provider w) (exporters w) (app w).

Definition write (s : Stream) (text : string) (w : World) : World :=
  match s with
  | Stdout =>
      mkWorld (ambient w) (settings w) (root_level w) (root_handlers w)
        (stdout w ++ [text]) (stderr w) (ticks w) (log_calls w)
        (providers w) (tracer_provider w) (exporters w) (app w)
  | Stderr =>
      mkWorld (ambient w) (settings w) (root_level w) (root_handlers w)
        (stdout w) (stderr w ++ [text]) (ticks w) (log_calls w)
        (providers w) (tracer_provider w) (exporters w) (app w)
  end.

Definition tick (w : World) : World :=
  mkWorld (ambient w) (settings w) (root_level w) (root_handlers w) (stdout w) (stderr w)
    (S (ticks w)) (log_calls w) (providers w) (tracer_provider w)
    (exporters w) (app w).

Definition record_call (c : LogCall) (w : World) : World :=
  mkWorld (ambient w) (settings w) (root_level w) (root_handlers w) (stdout w) (stderr w)
    (ticks w) (log_calls w ++ [c]) (providers w) (tracer_provider w)
    (exporters w) (app w).

Definition set_tracing (ps : list TracerProvider) (g : option nat)
  (es : list SpanExporter) (w : World) : World :=
  mkWorld (ambient w) (settings w) (root_level w) (root_handlers w) (stdout w) (stderr w)
    (ticks w) (log_calls w) ps g es (app w).

Definition set_app (a : option FastAPI) (w : World) : World :=
  mkWorld (ambient w) (settings w) (root_level w) (root_handlers w) (stdout w) (stderr w)
    (ticks w) (log_calls w) (providers w) (tracer_provider w) (exporters w) a.

End Runtime.

(* ------------------------------------------------------------------ *)
(** * The logging stack: the standard logging module under structlog *)

Module Logging.
Import Py Config Runtime.

(** [logging._nameToLevel] *)
Definition _nameToLevel : dict nat :=
  [("CRITICAL", 50); ("FATAL", 50); ("ERROR", 40); ("WARN", 30);
   ("WARNING", 30); ("INFO", 20); ("DEBUG", 10); ("NOTSET", 0)].

(** [logging._checkLevel] on a level given by name *)
Definition _checkLevel (level : string) : result nat :=
  match dict_get level _nameToLevel with
  | Some n => Ok n
  | None => Err (ValueError level)
  end.

(** [logging.basicConfig(format="%(message)s", level=level)]: only when the
    root logger has no handler yet, a [StreamHandler()] is added, which
    writes to [sys.stderr] since no stream is passed, and the root level is
    set after that. *)
Definition basicConfig (level : string) : M unit :=
  w <- get ;;
  match root_handlers w with
  | [] =>
      modify (set_root (root_level w) [mkHandler Stderr 0]) ;;
      match _checkLevel level with
      | Ok n => modify (fun w' => set_root n (root_handlers w') w')
      | Err e => raise e
      end
  | _ :: _ => ret tt
  end.

(** [Handler.handle]: filter on the handler's level, then write the message
    and the terminator to the handler's stream. *)
Definition handle (h : Handler) (levelno : nat) (msg : string) (w : World)
  : World :=
  if (h_level h <=? levelno)%nat
  then write (h_stream h) (msg ++ String Json.newline EmptyString) w
  else w.

(** [logging.lastResort] *)
Definition lastResort : Handler := mkHandler Stderr 30.

(** [Logger.callHandlers]: every handler of the root logger, or the
    handler of last resort when there is none. *)
Definition callHandlers (levelno : nat) (msg : string) (w : World) : World :=
  match root_handlers w with
  | [] => handle lastResort levelno msg w
  | hs => fold_left (fun acc h => handle h levelno msg acc) hs w
  end.

(** [Logger.log] of a logger without a level of its own: enabled when the
    level reaches the root logger's level. *)
Definition Logger_log (levelno : nat) (msg : string) : M unit :=
  fun w =>
    if (root_level w <=? levelno)%nat then (Ok tt, callHandlers levelno msg w)
    else (Ok tt, w).

(** The bound logger's methods: the name handed to the processors and to
    the standard logger ([warn] is [warning]), and the standard level. *)
Definition method_name (m : Method) : string :=
  match m with
  | debug => "debug" | info => "info" | warning => "warning"
  | warn => "warning" | error => "error" | critical => "critical"
  end.

Definition method_level (m : Method) : nat :=
  match m with
  | debug => 10 | info => 20 | warning => 30
  | warn => 30 | error => 40 | critical => 50
  end.

(** ** The processors configured by [setup_logging] *)

(** [structlog.stdlib.add_log_level] *)
Definition add_log_level (name : string) (event_dict : dict string)
  : M (dict string) :=
  let name' :=
    if String.eqb name "warn" then "warning"
    else if String.eqb name "exception" then "error"
    else name in
  ret (dict_set "level" name' event_dict).

(** [structlog.processors.TimeStamper(fmt="iso", utc=True)] *)
Definition TimeStamper (name : string) (event_dict : dict string)
  : M (dict string) :=
  w <- get ;;
  modify tick ;;
  ret (dict_set "timestamp"
         (isoformat (clock (ambient w) (ticks w)) ++ "Z") event_dict).

(** [structlog.processors.StackInfoRenderer()] *)
Definition StackInfoRenderer (name : string) (event_dict : dict string)
  : M (dict string) :=
  w <- get ;;
  match dict_get "stack_info" event_dict with
  | Some v =>
      let d := dict_del "stack_info" event_dict in
      if truthy v
      then ret (dict_set "stack" (stack_text (ambient w) (ticks w)) d)
      else ret d
  | None => ret event_dict
  end.

(** [structlog.processors.format_exc_info] *)
Definition format_exc_info (name : string) (event_dict : dict string)
  : M (dict string) :=
  w <- get ;;
  match dict_get "exc_info" event_dict with
  | Some v =>
      let d := dict_del "exc_info" event_dict in
      if truthy v
      then match exc_text (ambient w) (ticks w) with
           | Some text => ret (dict_set "exception" text d)
           | None => ret d
           end
      else ret d
  | None => ret event_dict
  end.

(** [structlog.processors.JSONRenderer()] *)
Definition JSONRenderer (name : string) (event_dict : dict string) : string :=
  Json.dumps event_dict.

(** The chain in the order of the [processors=[...]] list; its last entry,
    the renderer, turns the dict into the text handed to the logger. *)
Definition processors : list (string -> dict string -> M (dict string)) :=
  [add_log_level; TimeStamper; StackInfoRenderer; format_exc_info].

Fixpoint run_processors
  (ps : list (string -> dict string -> M (dict string)))
  (name : string) (event_dict : dict string) : M (dict string) :=
  match ps with
  | [] => ret event_dict
  | p :: r => d <- p name event_dict ;; run_processors r name d
  end.

(** [BoundLoggerBase._process_event]: the fields first, then the event. *)
Definition _process_event (name : string) (event : string)
  (event_kw : dict string) : M string :=
  let event_dict := dict_set "event" event (dict_update [] event_kw) in
  d <- run_processors processors name event_dict ;;
  ret (JSONRenderer name d).

(** The parameters of the bound logger's methods, [info(self, event,
    *args, **kw)] and [_proxy_to_logger(self, method_name, event, ...)]: a
    field of one of these names collides with the parameter. *)
Definition parameter_names : list string := ["self"; "event"; "method_name"].

Definition collision (kw : dict string) : option string :=
  find (fun name => mem name (dict_keys kw)) parameter_names.

(** [logger.<method>(event, **kw)] on the logger bound at module level
    after [setup_logging()]. *)
Definition logger_call (m : Method) (event : string) (kw : dict string)
  : M unit :=
  modify (record_call (mkLogCall m event kw)) ;;
  match collision kw with
  | Some name => raise (TypeError name)
  | None =>
    rendered <- _process_event (method_name m) event kw ;;
    Logger_log (method_level m) rendered
  end.

End Logging.

(* ------------------------------------------------------------------ *)
(** * The tracing and web libraries, as far as main.py drives them *)

Module Lib.
Import Py Config Runtime Logging.

(** [TracerProvider(resource=resource)]: a new object in the store. *)
Definition TracerProvider_new (r : Resource) : M nat :=
  fun w =>
    (Ok (length (providers w)),
     set_tracing (providers w ++ [mkTracerProvider r []])
       (tracer_provider w) (exporters w) w).

(** [trace.set_tracer_provider]: the global provider is set once; a later
    call leaves it and logs a warning through the standard logger. *)
Definition set_tracer_provider (p : nat) : M unit :=
  w <- get ;;
  match tracer_provider w with
  | None => modify (set_tracing (providers w) (Some p) (exporters w))
  | Some _ => Logger_log 30 "Overriding of current TracerProvider is not allowed"
  end.

(** [OTLPSpanExporter(endpoint=endpoint)]: the constructor parses the
    endpoint, a ValueError when it cannot; it opens no connection. *)
Definition OTLPSpanExporter_new (endpoint : string) : M SpanExporter :=
  fun w =>
    if exporter_accepts (ambient w) endpoint
    then (Ok (OTLPSpanExporter endpoint),
          set_tracing (providers w) (tracer_provider w)
            (exporters w ++ [OTLPSpanExporter endpoint]) w)
    else (Err (ValueError endpoint), w).

Fixpoint update_at {A} (i : nat) (f : A -> A) (l : list A) : list A :=
  match l, i with
  | [], _ => []
  | x :: r, O => f x :: r
  | x :: r, S j => x :: update_at j f r
  end.

(** [provider.add_span_processor(processor)]: the object in the store is
    changed, so every reference to it sees the processor. *)
Definition add_span_processor (p : nat) (sp : SpanProcessor) : M unit :=
  modify (fun w =>
    set_tracing
      (update_at p
         (fun tp => mkTracerProvider (resource tp) (span_processors tp ++ [sp]))
         (providers w))
      (tracer_provider w) (exporters w) w).

(** The module global [app]. *)
Definition the_app : M FastAPI :=
  w <- get ;;
  match app w with
  | Some a => ret a
  | None => raise (NameError "app")
  end.

Definition builtin_route (p : string) (e : Endpoint) : Route :=
  mkRoute p ["GET"; "HEAD"] None None [] e.

(** [FastAPI(title=..., ...)]: with the OpenAPI document on, the
    constructor asserts a title and a version that are not empty; the new
    application starts with the routes of its generated documentation. *)
Definition FastAPI_new (title description version : string)
  (openapi_tags : list (dict string)) (contact : dict string)
  (servers : list (dict string)) : M unit :=
  if negb (truthy title) then raise (AssertionError "title")
  else if negb (truthy version) then raise (AssertionError "version")
  else
    modify (set_app (Some
      (mkFastAPI title description version openapi_tags contact servers
         [builtin_route "/openapi.json" ep_openapi;
          builtin_route "/docs" ep_swagger_ui;
          builtin_route "/docs/oauth2-redirect" ep_swagger_ui_redirect;
          builtin_route "/redoc" ep_redoc]
         [] false))).

Definition with_routes (rs : list Route) (a : FastAPI) : FastAPI :=
  mkFastAPI (title a) (description a) (version a) (openapi_tags a)
    (contact a) (servers a) rs (user_middleware a)
    (_is_instrumented_by_opentelemetry a).

Definition with_middleware (ms : list Middleware) (flag : bool)
  (a : FastAPI) : FastAPI :=
  mkFastAPI (title a) (description a) (version a) (openapi_tags a)
    (contact a) (servers a) (routes a) ms flag.

(** [@app.<method>(path, operation_id=..., summary=..., tags=...)] applied
    to a function: the route is appended to the application's routes. *)
Definition add_api_route (method path : string)
  (operation_id summary : option string) (tags : list string)
  (e : Endpoint) : M unit :=
  a <- the_app ;;
  modify (set_app (Some
    (with_routes
       (routes a ++ [mkRoute path [method] operation_id summary tags e]) a))).

(** [FastAPIInstrumentor.instrument_app(app)]: the application is marked
    as instrumented (the instrumentor wraps the building of the middleware
    stack; the list of user middleware is left alone). *)
Definition instrument_app : M unit :=
  a <- the_app ;;
  if _is_instrumented_by_opentelemetry a
  then Logger_log 30
         "Attempting to instrument FastAPI app while already instrumented"
  else modify (set_app (Some (with_middleware (user_middleware a) true a))).

(** [Instrumentator().instrument(app)] *)
Definition Instrumentator_instrument : M unit :=
  a <- the_app ;;
  modify (set_app (Some
    (with_middleware (PrometheusInstrumentatorMiddleware :: user_middleware a)
       (_is_instrumented_by_opentelemetry a) a))).

(** [.expose(app, tags=tags)]: the metrics view on [/metrics]. *)
Definition Instrumentator_expose (tags : list string) : M unit :=
  add_api_route "GET" "/metrics" None None tags ep_metrics.

End Lib.

(* ------------------------------------------------------------------ *)
(** * main.py *)

Module Main.
Import Py Config Runtime Logging Lib Json.

(** [setup_logging]: the structlog configuration fixes the processor chain
    of [Logging.processors] and the standard logger factory; the root
    logger is configured from [settings.LOG_LEVEL.upper()]. *)
Definition setup_logging : M unit :=
  w <- get ;;
  basicConfig (upper (LOG_LEVEL (settings w))).

(** [setup_tracing(app)] *)
Definition setup_tracing : M unit :=
  w <- get ;;
  let s := settings w in
  if negb (truthy (OTEL_EXPORTER_OTLP_ENDPOINT s)) then
    logger_call info
      "Tracing disabled because OTEL_EXPORTER_OTLP_ENDPOINT is empty" []
  else
    let resource :=
      mkResource [("service.name", APP_NAME s);
                  ("service.version", APP_VERSION s)] in
    provider <- TracerProvider_new resource ;;
    set_tracer_provider provider ;;
    exporter <- OTLPSpanExporter_new (OTEL_EXPORTER_OTLP_ENDPOINT s) ;;
    let processor := BatchSpanProcessor exporter in
    add_span_processor provider processor ;;
    instrument_app ;;
    logger_call info
      ("Tracing enabled, exporting to " ++ OTEL_EXPORTER_OTLP_ENDPOINT s) [].

(** [setup_metrics(app)] *)
Definition setup_metrics : M unit :=
  Instrumentator_instrument ;;
  Instrumentator_expose ["Monitoring"].

Definition tags_metadata : list (dict string) :=
  [[("name", "Echo");
    ("description", "The core echo functionality of the service.")];
   [("name", "Monitoring");
    ("description", "Endpoints for monitoring service health and metrics.")]].

(** [class ToolInput(BaseModel)] *)
Record ToolInput : Type := mkToolInput { input : string }.

(** [echo] *)
Definition echo (payload : ToolInput) : M (dict string) :=
  logger_call info "echo.request" [("input", input payload)] ;;
  let result := "Echo: " ++ input payload in
  logger_call info "echo.response" [("output", result)] ;;
  ret [("output", result)].

(** [health_check] *)
Definition health_check : M (dict string) :=
  logger_call info "health.check" [] ;;
  ret [("status", "ok")].

(** [ready_check] *)
Definition ready_check : M (dict string) :=
  logger_call info "ready.check" [] ;;
  ret [("status", "ok")].

(** The statements of the module in order, after the imports (which build
    [settings]): logging, the application object, tracing, metrics, then
    the four route decorators ([head] is applied to [health_check] before
    [get], being the inner decorator).  [environ['TZ'] = 'UTC'] comes after
    the settings are built and the time stamper asks for UTC itself, so the
    assignment changes nothing modelled here. *)
Definition main : M unit :=
  setup_logging ;;
  w <- get ;;
  let s := settings w in
  FastAPI_new (APP_NAME s) "A simple echo tool for LLM agents."
    (APP_VERSION s) tags_metadata
    [("name", CONTACT_NAME s); ("url", CONTACT_URL s);
     ("email", CONTACT_EMAIL s)]
    (SERVERS s) ;;
  setup_tracing ;;
  setup_metrics ;;
  add_api_route "POST" "/echo" (Some "echo") None ["Echo"] ep_echo ;;
  add_api_route "HEAD" "/health" (Some "health_check_head")
    (Some "Health Check (HEAD)") ["Monitoring"] ep_health_check ;;
  add_api_route "GET" "/health" (Some "health_check_get")
    (Some "Health Check") ["Monitoring"] ep_health_check ;;
  add_api_route "GET" "/ready" (Some "ready_check")
    (Some "Readiness Check") ["Monitoring"] ep_ready_check.

(** ** Serving requests *)

(** A request sent as JSON: the method, the path and what the parser
    returns for the body, [None] when no body was sent. *)
Record Request : Type := mkRequest {
  req_method : string;
  req_path : string;
  req_body : option value
}.

Inductive Body : Type :=
| JSONBody (v : value)
| PlainText (s : string)
| Generated (by_view : Endpoint)
| EmptyBody.

Record Response : Type := mkResponse {
  status_code : nat;
  body : Body
}.

(** One entry of a validation error list. *)
Definition error_entry (type : string) (loc : list string) (msg : string)
  (inp : value) : value :=
  JDict [("type", JStr type); ("loc", JList (map JStr loc));
         ("msg", JStr msg); ("input", inp)].

(** Validation of the request body against [ToolInput]: the body must be
    an object whose [input] is a string; other keys are ignored.  A body
    that is absent or [null] is reported missing. *)
Definition validate (b : option value) : ToolInput + list value :=
  match b with
  | None | Some JNull =>
      inr [error_entry "missing" ["body"] "Field required" JNull]
  | Some (JDict d) =>
      match dict_get "input" d with
      | Some (JStr s) => inl (mkToolInput s)
      | Some v =>
          inr [error_entry "string_type" ["body"; "input"]
                 "Input should be a valid string" v]
      | None =>
          inr [error_entry "missing" ["body"; "input"] "Field required"
                 (JDict d)]
      end
  | Some v =>
      inr [error_entry "model_attributes_type" ["body"]
             "Input should be a valid dictionary or object to extract fields from"
             v]
  end.

(** A handler's returned dict as the JSON body of the response. *)
Definition jsonable (d : dict string) : value :=
  JDict (map (fun kv => (fst kv, JStr (snd kv))) d).

(** [JSONResponse(content, status_code)]: the content is encoded when the
    response is built; content that cannot be encoded raises (a float out
    of range gives ValueError, an unpaired surrogate UnicodeEncodeError,
    which is a ValueError). *)
Definition JSONResponse (status : nat) (content : value) : M Response :=
  if encodable content then ret (mkResponse status (JSONBody content))
  else raise (ValueError "content").

(** What the framework does with a route's function: validate the declared
    parameter, call the function, answer 200 with its result; a body that
    does not validate is answered 422 with the list of errors. *)
Definition run_endpoint (e : Endpoint) (req : Request) : M Response :=
  match e with
  | ep_echo =>
      match validate (req_body req) with
      | inl payload => d <- echo payload ;; JSONResponse 200 (jsonable d)
      | inr errors => JSONResponse 422 (JDict [("detail", JList errors)])
      end
  | ep_health_check => d <- health_check ;; JSONResponse 200 (jsonable d)
  | ep_ready_check => d <- ready_check ;; JSONResponse 200 (jsonable d)
  | other => ret (mkResponse 200 (Generated other))
  end.

Inductive Match : Type := FULL (r : Route) | PARTIAL | NONE.

(** The router: the first route matching path and method; failing that, a
    route matching the path alone. *)
Fixpoint route_for (rs : list Route) (req : Request) : Match :=
  match rs with
  | [] => NONE
  | r :: rest =>
      if String.eqb (path r) (req_path req) then
        if mem (req_method req) (methods r) then FULL r
        else match route_for rest req with
             | FULL r' => FULL r'
             | _ => PARTIAL
             end
      else route_for rest req
  end.

(** [s.rstrip("/")] *)
Fixpoint rstrip_slash (s : string) : string :=
  match s with
  | EmptyString => EmptyString
  | String c r =>
      match rstrip_slash r with
      | EmptyString =>
          if Ascii.eqb c "/"%char then EmptyString else String c EmptyString
      | r' => String c r'
      end
  end.

Fixpoint ends_with_slash (s : string) : bool :=
  match s with
  | EmptyString => false
  | String c EmptyString => Ascii.eqb c "/"%char
  | String _ r => ends_with_slash r
  end.

(** The path the router tries when nothing matched: without its trailing
    slashes, or with one added. *)
Definition redirect_path (p : string) : string :=
  if ends_with_slash p then rstrip_slash p else p ++ "/".

Definition with_path (p : string) (req : Request) : Request :=
  mkRequest (req_method req) p (req_body req).

(** The answer to a HEAD request carries no body. *)
Definition for_method (m : string) (r : Response) : Response :=
  if String.eqb m "HEAD" then mkResponse (status_code r) EmptyBody else r.

(** What the router answers when no route matches the path: a redirect
    (307) when the path with the slash added or removed has a route, 404
    otherwise. *)
Definition unmatched (rs : list Route) (req : Request) : Response :=
  if negb (String.eqb (req_path req) "/")
     && match route_for rs (with_path (redirect_path (req_path req)) req) with
        | NONE => false
        | _ => true
        end
  then mkResponse 307 EmptyBody
  else mkResponse 404 (JSONBody (JDict [("detail", JStr "Not Found")])).

(** One request through the application: routing, the route's function,
    an uncaught exception answered with 500. *)
Definition handle_request (req : Request) : M Response :=
  a <- the_app ;;
  fun w =>
    let (res, w') :=
      match route_for (routes a) req with
      | FULL r => run_endpoint (endpoint r) req w
      | PARTIAL =>
          (Ok (mkResponse 405
                 (JSONBody (JDict [("detail", JStr "Method Not Allowed")]))), w)
      | NONE => (Ok (unmatched (routes a) req), w)
      end in
    match res with
    | Ok r => (Ok (for_method (req_method req) r), w')
    | Err _ =>
        (Ok (for_method (req_method req)
               (mkResponse 500 (PlainText "Internal Server Error"))), w')
    end.

(** The process from its start: the settings are built on import of
    [config], then the module body runs. *)
Definition boot (amb : Ambient)
  (decode_servers : string -> option (list (dict string)))
  (environ : list (string * string))
  (dotenv : option (list (string * option string))) : result World :=
  match Settings_new decode_servers environ dotenv with
  | Err e => Err e
  | Ok s =>
      match main (fresh amb s) with
      | (Ok _, w) => Ok w
      | (Err e, _) => Err e
      end
  end.

(** The states the serving process can be in. *)
Inductive reachable : World -> Prop :=
| reach_boot amb decode_servers environ dotenv w :
    boot amb decode_servers environ dotenv = Ok w -> reachable w
| reach_request w req :
    reachable w -> reachable (snd (handle_request req w)).

(** The states of a run of requests. *)
Fixpoint serve (reqs : list Request) (w : World) : list Response * World :=
  match reqs with
  | [] => ([], w)
  | req :: rest =>
      match handle_request req w with
      | (Ok r, w') => let (rs, w'') := serve rest w' in (r :: rs, w'')
      | (Err _, w') => ([], w')
      end
  end.

End Main.

(* ------------------------------------------------------------------ *)
(** * Properties *)

Module Facts.
Import Py Config Runtime Logging Lib Json Main.

(** ** Dicts *)

Lemma dict_get_set_same {V} (k : string) (v : V) (d : dict V) :
  dict_get k (dict_set k v d) = Some v.
Proof.
  induction d as [|[k' v'] r IH]; simpl.
  - now rewrite String.eqb_refl.
  - destruct (String.eqb k k') eqn:E; simpl; rewrite E; auto.
Qed.

Lemma dict_get_set_other {V} (k k' : string) (v : V) (d : dict V) :
  k <> k' -> dict_get k (dict_set k' v d) = dict_get k d.
Proof.
  intros Hne. induction d as [|[k2 v2] r IH]; simpl.
  - destruct (String.eqb_spec k k'); congruence.
  - destruct (String.eqb_spec k' k2) as [->|Hk]; simpl.
    + destruct (String.eqb_spec k k2); congruence.
    + destruct (String.eqb_spec k k2); auto.
Qed.

Lemma dict_get_del_other {V} (k k' : string) (d : dict V) :
  k <> k' -> dict_get k (dict_del k' d) = dict_get k d.
Proof.
  intros Hne. induction d as [|[k2 v2] r IH]; simpl; auto.
  destruct (String.eqb_spec k' k2) as [->|Hk]; simpl.
  - destruct (String.eqb_spec k k2); congruence.
  - destruct (String.eqb_spec k k2); auto.
Qed.



(** ** [json.dumps] writes no line break *)

Lemma occurs_app (c : ascii) (a b : string) :
  occurs c (a ++ b) = occurs c a || occurs c b.
Proof.
  induction a as [|x a IH]; simpl; auto.
  rewrite IH. now rewrite orb_assoc.
Qed.

Lemma get_occurs (s : string) (i : nat) (c : ascii) :
  String.get i s = Some c -> occurs c s = true.
Proof.
  revert i. induction s as [|x s IH]; intros i; simpl; [discriminate|].
  destruct i as [|i].
  - intros [= ->]. now rewrite Ascii.eqb_refl.
  - intros H. rewrite (IH _ H). apply orb_true_r.
Qed.

Lemma hex_digit_not_newline (n : N) : Ascii.eqb newline (hex_digit n) = false.
Proof.
  unfold hex_digit.
  destruct (String.get _ _) as [c|] eqn:E; [|reflexivity].
  apply get_occurs in E.
  destruct (Ascii.eqb_spec newline c) as [<-|]; [|reflexivity].
  vm_compute in E. discriminate.
Qed.

Lemma hex4_no_newline (n : N) : occurs newline (hex4 n) = false.
Proof.
  unfold hex4. cbn [occurs]. now rewrite !hex_digit_not_newline.
Qed.

Lemma escape_code_point_no_newline (n : N) :
  occurs newline (escape_code_point n) = false.
Proof.
  unfold escape_code_point. destruct (n <? 65536)%N.
  - rewrite occurs_app, hex4_no_newline. reflexivity.
  - rewrite !occurs_app, !hex4_no_newline. reflexivity.
Qed.

Lemma escape_ascii_no_newline (c : ascii) :
  occurs newline (escape_ascii c) = false.
Proof.
  destruct c as [[] [] [] [] [] [] [] []]; vm_compute; reflexivity.
Qed.

Lemma escape_body_no_newline_upto (n : nat) :
  forall s, String.length s <= n -> occurs newline (escape_body s) = false.
Proof.
  induction n as [|n IH]; intros s Hlen.
  - destruct s; simpl in *; [reflexivity|lia].
  - destruct s as [|c r]; [reflexivity|].
    simpl in Hlen. cbn [escape_body].
    assert (Hr : occurs newline (escape_body r) = false)
      by (apply IH; lia).
    assert (Hone : forall b, occurs newline
                     (escape_code_point b ++ escape_body r) = false)
      by (intros b; now rewrite occurs_app, escape_code_point_no_newline, Hr).
    destruct (N_of_ascii c <? 128)%N.
    { now rewrite occurs_app, escape_ascii_no_newline, Hr. }
    destruct ((192 <=? N_of_ascii c) && (N_of_ascii c <? 224))%N.
    { destruct r as [|c2 r2]; [apply Hone|].
      rewrite occurs_app, escape_code_point_no_newline.
      apply IH. simpl in Hlen. lia. }
    destruct ((224 <=? N_of_ascii c) && (N_of_ascii c <? 240))%N.
    { destruct r as [|c2 [|c3 r3]]; try apply Hone.
      rewrite occurs_app, escape_code_point_no_newline.
      apply IH. simpl in Hlen. lia. }
    destruct ((240 <=? N_of_ascii c) && (N_of_ascii c <? 248))%N.
    { destruct r as [|c2 [|c3 [|c4 r4]]]; try apply Hone.
      rewrite occurs_app, escape_code_point_no_newline.
      apply IH. simpl in Hlen. lia. }
    apply Hone.
Qed.

Lemma encode_basestring_ascii_no_newline (s : string) :
  occurs newline (encode_basestring_ascii s) = false.
Proof.
  unfold encode_basestring_ascii.
  rewrite !occurs_app, (escape_body_no_newline_upto (String.length s) s)
    by lia.
  reflexivity.
Qed.

Lemma dumps_items_no_newline (d : dict string) :
  occurs newline (dumps_items d) = false.
Proof.
  induction d as [|[k v] r IH]; [reflexivity|].
  destruct r as [|kv r'].
  - cbn [dumps_items].
    rewrite !occurs_app, !encode_basestring_ascii_no_newline.
    reflexivity.
  - change (dumps_items ((k, v) :: kv :: r'))
      with (encode_basestring_ascii k ++ ": " ++ encode_basestring_ascii v
              ++ ", " ++ dumps_items (kv :: r')).
    rewrite !occurs_app, !encode_basestring_ascii_no_newline, IH.
    reflexivity.
Qed.

Lemma dumps_no_newline (d : dict string) : occurs newline (dumps d) = false.
Proof.
  unfold dumps. rewrite !occurs_app, dumps_items_no_newline. reflexivity.
Qed.

(** ** One call on the logger *)

#[local] Arguments dumps : simpl never.
#[local] Arguments isoformat : simpl never.
#[local] Arguments String.append : simpl never.

(** The keys the processor chain writes or consumes whatever the call:
    [level] and [timestamp] are set, [stack_info] and [exc_info] are taken
    out. *)
Definition chain_keys : list string :=
  ["level"; "timestamp"; "stack_info"; "exc_info"].

(** Whether a dict holds a truthy value under a key. *)
Definition flag (name : string) (d : dict string) : bool :=
  match dict_get name d with
  | Some v => truthy v
  | None => false
  end.

(** A field name the chain leaves alone in a call with fields [kw], made
    while [exc] tells the exception being handled: not one of the chain's
    keys, not [stack] beside a truthy [stack_info], not [exception] beside
    a truthy [exc_info] while an exception is handled. *)
Definition kept (kw : dict string) (exc : option string) (k : string)
  : Prop :=
  ~ In k chain_keys
  /\ (k = "stack" -> flag "stack_info" (dict_update [] kw) = false)
  /\ (k = "exception" ->
      flag "exc_info" (dict_update [] kw) = true -> exc = None).

(** What a rendered event dict holds for a call of method [m] with event
    [ev] and fields [kw], stamped with the clock reading [now]. *)
Definition rendering_of (m : Method) (ev : string) (kw : dict string)
  (now : datetime) (exc : option string) (d : dict string) : Prop :=
  dict_get "timestamp" d = Some (isoformat now ++ "Z")
  /\ dict_get "level" d = Some (method_name m)
  /\ dict_get "event" d = Some ev
  /\ forall k v, kept kw exc k ->
       dict_get k (dict_update [] kw) = Some v -> dict_get k d = Some v.

Ltac dict_other :=
  repeat first
    [ rewrite dict_get_set_same
    | rewrite dict_get_set_other by (intro; discriminate)
    | rewrite dict_get_del_other by (intro; discriminate) ].

Lemma method_name_plain (m : Method) :
  (if String.eqb (method_name m) "warn" then "warning"
   else if String.eqb (method_name m) "exception" then "error"
   else method_name m) = method_name m.
Proof. destruct m; reflexivity. Qed.

Lemma bind_ok {A B} (c : M A) (k : A -> M B) (w w' : World) (a : A) :
  c w = (Ok a, w') -> bind c k w = k a w'.
Proof. unfold bind. now intros ->. Qed.

Lemma bind_err {A B} (c : M A) (k : A -> M B) (w w' : World) (e : exn) :
  c w = (Err e, w') -> bind c k w = (Err e, w').
Proof. unfold bind. now intros ->. Qed.

Lemma dict_update_get_in {V} (k : string) (v : V) (kw acc : dict V) :
  dict_get k (dict_update acc kw) = Some v ->
  In k (dict_keys kw) \/ dict_get k acc = Some v.
Proof.
  unfold dict_update. revert acc.
  induction kw as [|[k' v'] r IH]; intros acc; cbn [fold_left fst snd].
  - now right.
  - intros H. destruct (IH _ H) as [Hin|Hacc].
    + left. cbn. now right.
    + destruct (String.eqb_spec k k') as [->|Hne].
      * left. cbn. now left.
      * right. now rewrite dict_get_set_other in Hacc.
Qed.

Lemma StackInfoRenderer_run (name : string) (d : dict string) (w : World) :
  exists d',
    StackInfoRenderer name d w = (Ok d', w)
    /\ forall k, k <> "stack_info" ->
         (k = "stack" -> flag "stack_info" d = false) ->
         dict_get k d' = dict_get k d.
Proof.
  unfold StackInfoRenderer, bind, get, ret, flag.
  destruct (dict_get "stack_info" d) as [v|]; [destruct (truthy v)|];
    eexists; (split; [reflexivity|]); intros k H1 H2; auto.
  - destruct (String.eqb_spec k "stack") as [E|Hne].
    + specialize (H2 E). discriminate H2.
    + now rewrite dict_get_set_other, dict_get_del_other.
  - now rewrite dict_get_del_other.
Qed.

Lemma format_exc_info_run (name : string) (d : dict string) (w : World) :
  exists d',
    format_exc_info name d w = (Ok d', w)
    /\ forall k, k <> "exc_info" ->
         (k = "exception" -> flag "exc_info" d = true ->
          exc_text (ambient w) (ticks w) = None) ->
         dict_get k d' = dict_get k d.
Proof.
  unfold format_exc_info, bind, get, ret, flag.
  destruct (dict_get "exc_info" d) as [v|];
    [destruct (truthy v);
       [destruct (exc_text (ambient w) (ticks w)) as [text|]|]|];
    eexists; (split; [reflexivity|]); intros k H1 H2; auto.
  - destruct (String.eqb_spec k "exception") as [E|Hne].
    + specialize (H2 E eq_refl). discriminate H2.
    + now rewrite dict_get_set_other, dict_get_del_other.
  - now rewrite dict_get_del_other.
  - now rewrite dict_get_del_other.
Qed.

Lemma process_event_run (m : Method) (ev : string) (kw : dict string)
  (w : World) :
  ~ In "event" (dict_keys kw) ->
  exists d,
    _process_event (method_name m) ev kw w = (Ok (dumps d), tick w)
    /\ rendering_of m ev kw (clock (ambient w) (ticks w))
         (exc_text (ambient w) (S (ticks w))) d.
Proof.
  intros Hev.
  unfold _process_event, processors. cbn [run_processors].
  set (d0 := dict_set "event" ev (dict_update [] kw)).
  set (d1 := dict_set "level" (method_name m) d0).
  set (d2 := dict_set "timestamp"
               (isoformat (clock (ambient w) (ticks w)) ++ "Z") d1).
  destruct (StackInfoRenderer_run (method_name m) d2 (tick w))
    as (d3 & E3 & K3).
  destruct (format_exc_info_run (method_name m) d3 (tick w))
    as (d4 & E4 & K4).
  assert (F2 : forall name, name = "stack_info" \/ name = "exc_info" ->
            dict_get name d2 = dict_get name (dict_update [] kw)).
  { intros name [-> | ->]; unfold d2, d1, d0; now dict_other. }
  assert (F3 : dict_get "exc_info" d3 = dict_get "exc_info" (dict_update [] kw)).
  { rewrite K3; [apply F2; now right|discriminate|discriminate]. }
  exists d4. split.
  - erewrite bind_ok; cycle 1.
    { erewrite bind_ok; cycle 1.
      { unfold add_log_level, ret. rewrite method_name_plain. reflexivity. }
      erewrite bind_ok; cycle 1.
      { unfold TimeStamper, bind, get, modify, ret. reflexivity. }
      erewrite bind_ok; cycle 1.
      { exact E3. }
      erewrite bind_ok; cycle 1.
      { exact E4. }
      reflexivity. }
    reflexivity.
  - assert (Hk : forall k, k <> "stack_info" -> k <> "stack" ->
              k <> "exc_info" -> k <> "exception" ->
              dict_get k d4 = dict_get k d2).
    { intros k ? ? ? ?. rewrite K4, K3; auto; intros; contradiction. }
    unfold rendering_of. repeat split.
    + rewrite Hk by (intro; discriminate). unfold d2. dict_other. reflexivity.
    + rewrite Hk by (intro; discriminate). unfold d2, d1. dict_other.
      reflexivity.
    + rewrite Hk by (intro; discriminate). unfold d2, d1, d0. dict_other.
      reflexivity.
    + intros k v (Hc & Hs & Hx) Hv.
      assert (Hin : In k (dict_keys kw)).
      { destruct (dict_update_get_in k v kw [] Hv) as [H|H];
          [exact H|discriminate H]. }
      assert (k <> "event") by (intros ->; contradiction).
      assert (k <> "level" /\ k <> "timestamp"
              /\ k <> "stack_info" /\ k <> "exc_info") as (? & ? & ? & ?)
        by (repeat split; intros ->; apply Hc; cbn; tauto).
      rewrite K4; auto.
      * rewrite K3; auto.
        -- unfold d2, d1, d0. now rewrite !dict_get_set_other.
        -- intros E. unfold flag. rewrite F2 by now left. now apply Hs.
      * intros E Hf. cbn [tick ambient ticks]. apply Hx; auto.
        unfold flag in *. now rewrite <- F3.
Qed.

(** The state after a call on the logger whose rendered dict is [d]: the
    call is recorded, the clock has been read once, and the line is on
    standard error when the root level admits the method's level. *)
Definition after_call (m : Method) (ev : string) (kw : dict string)
  (d : dict string) (w : World) : World :=
  let w1 := tick (record_call (mkLogCall m ev kw) w) in
  if (root_level w <=? method_level m)%nat
  then write Stderr (dumps d ++ String newline EmptyString) w1
  else w1.

Lemma collision_none (kw : dict string) :
  collision kw = None ->
  forall name, In name parameter_names -> ~ In name (dict_keys kw).
Proof.
  unfold collision. intros H name Hn Hin.
  pose proof (find_none _ _ H name Hn) as E. cbn beta in E.
  unfold mem in E.
  assert (existsb (String.eqb name) (dict_keys kw) = true) as E'.
  { apply existsb_exists. exists name. split; auto. apply String.eqb_refl. }
  congruence.
Qed.

Lemma collision_some (kw : dict string) (name : string) :
  collision kw = Some name ->
  In name parameter_names /\ In name (dict_keys kw).
Proof.
  unfold collision. intros H. apply find_some in H as (Hn & Hm).
  split; [exact Hn|]. unfold mem in Hm.
  apply existsb_exists in Hm as (x & Hx & E).
  apply String.eqb_eq in E. now subst.
Qed.

Lemma logger_call_run (m : Method) (ev : string) (kw : dict string)
  (w : World) :
  root_handlers w = [mkHandler Stderr 0] ->
  collision kw = None ->
  exists d,
    logger_call m ev kw w = (Ok tt, after_call m ev kw d w)
    /\ rendering_of m ev kw (clock (ambient w) (ticks w))
         (exc_text (ambient w) (S (ticks w))) d.
Proof.
  intros Hh Hkw.
  destruct (process_event_run m ev kw (record_call (mkLogCall m ev kw) w))
    as (d & E & Hd).
  { apply (collision_none kw Hkw). cbn. tauto. }
  exists d. split; [|exact Hd].
  unfold logger_call.
  erewrite bind_ok by (unfold modify; reflexivity).
  rewrite Hkw.
  erewrite bind_ok by exact E.
  unfold Logger_log, after_call, callHandlers, handle.
  cbn [root_level root_handlers tick record_call].
  rewrite Hh. cbn [fold_left h_level h_stream Nat.leb].
  destruct (root_level w <=? method_level m)%nat; reflexivity.
Qed.

Lemma logger_call_refused (m : Method) (ev : string) (kw : dict string)
  (w : World) (name : string) :
  collision kw = Some name ->
  logger_call m ev kw w
  = (Err (TypeError name), record_call (mkLogCall m ev kw) w).
Proof.
  intros Hkw. unfold logger_call.
  erewrite bind_ok by (unfold modify; reflexivity).
  rewrite Hkw. reflexivity.
Qed.

(** Two states that differ at most in what logging touches: the standard
    error stream, the clock readings and the record of calls. *)
Definition frame (w w' : World) : Prop :=
  ambient w' = ambient w /\ settings w' = settings w
  /\ root_level w' = root_level w /\ root_handlers w' = root_handlers w
  /\ stdout w' = stdout w /\ providers w' = providers w
  /\ tracer_provider w' = tracer_provider w /\ exporters w' = exporters w
  /\ app w' = app w.

Lemma frame_refl (w : World) : frame w w.
Proof. unfold frame. tauto. Qed.

Lemma frame_trans (w1 w2 w3 : World) :
  frame w1 w2 -> frame w2 w3 -> frame w1 w3.
Proof.
  unfold frame. intros H1 H2.
  decompose [and] H1. decompose [and] H2.
  repeat split; congruence.
Qed.

Lemma after_call_frame m ev kw d w : frame w (after_call m ev kw d w).
Proof.
  unfold frame, after_call.
  destruct (root_level w <=? method_level m)%nat; cbn; tauto.
Qed.



Lemma after_call_stderr m ev kw d w :
  stderr (after_call m ev kw d w) =
  if (root_level w <=? method_level m)%nat
  then (stderr w ++ [(dumps d ++ String newline EmptyString)%string])%list
  else stderr w.
Proof.
  unfold after_call. destruct (root_level w <=? method_level m)%nat; reflexivity.
Qed.

(** ** The handlers *)

Lemma echo_run (payload : ToolInput) (w : World) :
  root_handlers w = [mkHandler Stderr 0] ->
  exists d1 d2,
    echo payload w =
      (Ok [("output", "Echo: " ++ input payload)],
       after_call info "echo.response"
         [("output", "Echo: " ++ input payload)] d2
         (after_call info "echo.request" [("input", input payload)] d1 w)).
Proof.
  intros Hh. unfold echo.
  destruct (logger_call_run info "echo.request" [("input", input payload)] w)
    as (d1 & E1 & _); auto.
  set (w1 := after_call info "echo.request" [("input", input payload)] d1 w)
    in *.
  assert (Hh1 : root_handlers w1 = [mkHandler Stderr 0]).
  { destruct (after_call_frame info "echo.request"
                [("input", input payload)] d1 w) as (_ & _ & _ & H & _).
    fold w1 in H. congruence. }
  destruct (logger_call_run info "echo.response"
              [("output", "Echo: " ++ input payload)] w1)
    as (d2 & E2 & _); auto.
  exists d1, d2.
  erewrite bind_ok by exact E1.
  erewrite bind_ok by exact E2.
  reflexivity.
Qed.

Lemma health_check_run (w : World) :
  root_handlers w = [mkHandler Stderr 0] ->
  exists d,
    health_check w =
      (Ok [("status", "ok")], after_call info "health.check" [] d w).
Proof.
  intros Hh. unfold health_check.
  destruct (logger_call_run info "health.check" [] w) as (d & E & _); auto.
  exists d. erewrite bind_ok by exact E. reflexivity.
Qed.

Lemma ready_check_run (w : World) :
  root_handlers w = [mkHandler Stderr 0] ->
  exists d,
    ready_check w =
      (Ok [("status", "ok")], after_call info "ready.check" [] d w).
Proof.
  intros Hh. unfold ready_check.
  destruct (logger_call_run info "ready.check" [] w) as (d & E & _); auto.
  exists d. erewrite bind_ok by exact E. reflexivity.
Qed.

(** ** The module body *)

#[local] Arguments upper : simpl never.

Lemma setup_logging_run (amb : Ambient) (s : Settings) (n : nat) :
  _checkLevel (upper (LOG_LEVEL s)) = Ok n ->
  setup_logging (fresh amb s)
  = (Ok tt, set_root n [mkHandler Stderr 0] (fresh amb s)).
Proof.
  intros H. unfold setup_logging, basicConfig, bind, get, modify, raise, ret.
  cbn. rewrite H. reflexivity.
Qed.


Definition disabled_message : string :=
  "Tracing disabled because OTEL_EXPORTER_OTLP_ENDPOINT is empty".

Lemma setup_tracing_disabled (w : World) :
  root_handlers w = [mkHandler Stderr 0] ->
  OTEL_EXPORTER_OTLP_ENDPOINT (settings w) = "" ->
  exists d,
    setup_tracing w = (Ok tt, after_call info disabled_message [] d w).
Proof.
  intros Hh He.
  destruct (logger_call_run info disabled_message [] w) as (d & E & _); auto.
  exists d. unfold setup_tracing, bind at 1, get at 1.
  rewrite He. cbn [truthy negb]. exact E.
Qed.

Lemma update_at_last {A} (f : A -> A) (l : list A) (x : A) :
  update_at (length l) f (l ++ [x])%list = (l ++ [f x])%list.
Proof. induction l as [|y l IH]; simpl; congruence. Qed.

(** The state [setup_tracing] leaves when the endpoint is set, before its
    closing log call. *)
Definition traced (a : FastAPI) (w : World) : World :=
  let s := settings w in
  set_app
    (Some (with_middleware (user_middleware a) true a))
    (set_tracing
       (providers w ++
          [mkTracerProvider
             (mkResource [("service.name", APP_NAME s);
                          ("service.version", APP_VERSION s)])
             [BatchSpanProcessor
                (OTLPSpanExporter (OTEL_EXPORTER_OTLP_ENDPOINT s))]])
       (Some (length (providers w)))
       (exporters w ++ [OTLPSpanExporter (OTEL_EXPORTER_OTLP_ENDPOINT s)])
       w).

Lemma setup_tracing_enabled (w : World) (a : FastAPI) :
  root_handlers w = [mkHandler Stderr 0] ->
  truthy (OTEL_EXPORTER_OTLP_ENDPOINT (settings w)) = true ->
  exporter_accepts (ambient w) (OTEL_EXPORTER_OTLP_ENDPOINT (settings w))
  = true ->
  tracer_provider w = None ->
  app w = Some a ->
  _is_instrumented_by_opentelemetry a = false ->
  exists d,
    setup_tracing w =
      (Ok tt,
       after_call info
         ("Tracing enabled, exporting to "
            ++ OTEL_EXPORTER_OTLP_ENDPOINT (settings w)) [] d (traced a w)).
Proof.
  intros Hh He Hacc Hp Ha Hi.
  destruct (logger_call_run info
              ("Tracing enabled, exporting to "
                 ++ OTEL_EXPORTER_OTLP_ENDPOINT (settings w)) []
              (traced a w)) as (d & E & _); auto.
  exists d. unfold setup_tracing, bind at 1, get at 1.
  rewrite He. cbn [negb].
  unfold TracerProvider_new, set_tracer_provider, OTLPSpanExporter_new,
    add_span_processor, instrument_app, the_app, bind, get, modify, ret.
  cbn [tracer_provider set_tracing providers exporters app settings
       ambient root_level root_handlers stdout stderr ticks log_calls].
  rewrite Hp. cbn [tracer_provider set_tracing providers exporters app
                   ambient].
  rewrite Hacc.
  cbn [tracer_provider set_tracing providers exporters app].
  rewrite Ha, Hi, update_at_last.
  cbn [resource span_processors app_nil_l List.app].
  exact E.
Qed.

(** An endpoint the exporter cannot parse stops [setup_tracing] after the
    provider is installed and before anything is logged. *)
Lemma setup_tracing_refused (w : World) :
  truthy (OTEL_EXPORTER_OTLP_ENDPOINT (settings w)) = true ->
  exporter_accepts (ambient w) (OTEL_EXPORTER_OTLP_ENDPOINT (settings w))
  = false ->
  tracer_provider w = None ->
  exists w',
    setup_tracing w
    = (Err (ValueError (OTEL_EXPORTER_OTLP_ENDPOINT (settings w))), w').
Proof.
  intros He Hacc Hp.
  unfold setup_tracing, bind at 1, get at 1.
  rewrite He. cbn [negb].
  unfold TracerProvider_new, set_tracer_provider, OTLPSpanExporter_new,
    bind, get, modify, ret.
  cbn [tracer_provider set_tracing providers exporters app settings
       ambient root_level root_handlers stdout stderr ticks log_calls].
  rewrite Hp. cbn [ambient set_tracing]. rewrite Hacc.
  eexists. reflexivity.
Qed.

(** Settings the module body can start from: a name and a version for the
    application and, when a collector endpoint is set, one the exporter
    accepts. *)
Definition startable (amb : Ambient) (s : Settings) : bool :=
  truthy (APP_NAME s) && truthy (APP_VERSION s)
  && (negb (truthy (OTEL_EXPORTER_OTLP_ENDPOINT s))
      || exporter_accepts amb (OTEL_EXPORTER_OTLP_ENDPOINT s)).


Definition metrics_route : Route :=
  mkRoute "/metrics" ["GET"] None None ["Monitoring"] ep_metrics.

Lemma add_api_route_run (w : World) (a : FastAPI) method path oid sm tg e :
  app w = Some a ->
  add_api_route method path oid sm tg e w =
    (Ok tt,
     set_app (Some (with_routes
                      (routes a ++ [mkRoute path [method] oid sm tg e]) a)) w).
Proof.
  intros Ha. unfold add_api_route, the_app, bind, get, modify, ret.
  rewrite Ha. reflexivity.
Qed.

Lemma setup_metrics_run (w : World) (a : FastAPI) :
  app w = Some a ->
  setup_metrics w =
    (Ok tt,
     set_app
       (Some (with_routes (routes a ++ [metrics_route])
                (with_middleware
                   (PrometheusInstrumentatorMiddleware :: user_middleware a)
                   (_is_instrumented_by_opentelemetry a) a))) w).
Proof.
  intros Ha.
  unfold setup_metrics, Instrumentator_instrument, Instrumentator_expose,
    add_api_route, the_app, bind, get, modify, ret.
  rewrite Ha. reflexivity.
Qed.

(** The routes of the application once the module body has run. *)
Definition main_routes : list Route :=
  [builtin_route "/openapi.json" ep_openapi;
   builtin_route "/docs" ep_swagger_ui;
   builtin_route "/docs/oauth2-redirect" ep_swagger_ui_redirect;
   builtin_route "/redoc" ep_redoc;
   metrics_route;
   mkRoute "/echo" ["POST"] (Some "echo") None ["Echo"] ep_echo;
   mkRoute "/health" ["HEAD"] (Some "health_check_head")
     (Some "Health Check (HEAD)") ["Monitoring"] ep_health_check;
   mkRoute "/health" ["GET"] (Some "health_check_get")
     (Some "Health Check") ["Monitoring"] ep_health_check;
   mkRoute "/ready" ["GET"] (Some "ready_check")
     (Some "Readiness Check") ["Monitoring"] ep_ready_check].

(** The application object once the module body has run. *)
Definition served_app (s : Settings) : FastAPI :=
  mkFastAPI (APP_NAME s) "A simple echo tool for LLM agents."
    (APP_VERSION s) tags_metadata
    [("name", CONTACT_NAME s); ("url", CONTACT_URL s);
     ("email", CONTACT_EMAIL s)]
    (SERVERS s) main_routes
    [PrometheusInstrumentatorMiddleware]
    (truthy (OTEL_EXPORTER_OTLP_ENDPOINT s)).

(** The provider [setup_tracing] builds from the settings. *)
Definition the_provider (s : Settings) : TracerProvider :=
  mkTracerProvider
    (mkResource [("service.name", APP_NAME s);
                 ("service.version", APP_VERSION s)])
    [BatchSpanProcessor (OTLPSpanExporter (OTEL_EXPORTER_OTLP_ENDPOINT s))].

(** The state right after the module body, for settings [s] whose log
    level names the level [n]. *)
Definition started (amb : Ambient) (s : Settings) (n : nat) (w : World)
  : Prop :=
  ambient w = amb /\ settings w = s
  /\ root_level w = n /\ root_handlers w = [mkHandler Stderr 0]
  /\ stdout w = [] /\ ticks w = 1
  /\ app w = Some (served_app s)
  /\ providers w =
       (if truthy (OTEL_EXPORTER_OTLP_ENDPOINT s) then [the_provider s]
        else [])
  /\ tracer_provider w =
       (if truthy (OTEL_EXPORTER_OTLP_ENDPOINT s) then Some 0 else None)
  /\ exporters w =
       (if truthy (OTEL_EXPORTER_OTLP_ENDPOINT s)
        then [OTLPSpanExporter (OTEL_EXPORTER_OTLP_ENDPOINT s)] else [])
  /\ log_calls w =
       [mkLogCall info
          (if truthy (OTEL_EXPORTER_OTLP_ENDPOINT s)
           then "Tracing enabled, exporting to "
                  ++ OTEL_EXPORTER_OTLP_ENDPOINT s
           else disabled_message) []].

Lemma FastAPI_new_run (t d v : string) (tg : list (dict string))
  (c : dict string) (sv : list (dict string)) (w : World) :
  truthy t = true ->
  truthy v = true ->
  FastAPI_new t d v tg c sv w
  = (Ok tt,
     set_app (Some
       (mkFastAPI t d v tg c sv
          [builtin_route "/openapi.json" ep_openapi;
           builtin_route "/docs" ep_swagger_ui;
           builtin_route "/docs/oauth2-redirect" ep_swagger_ui_redirect;
           builtin_route "/redoc" ep_redoc]
          [] false)) w).
Proof. intros Ht Hv. unfold FastAPI_new. now rewrite Ht, Hv. Qed.

Lemma main_run (amb : Ambient) (s : Settings) (n : nat) :
  _checkLevel (upper (LOG_LEVEL s)) = Ok n ->
  startable amb s = true ->
  exists w, main (fresh amb s) = (Ok tt, w) /\ started amb s n w.
Proof.
  intros Hn Hstart.
  apply andb_prop in Hstart as (Hstart & Hacc).
  apply andb_prop in Hstart as (Htitle & Hversion).
  unfold main.
  erewrite bind_ok by (apply setup_logging_run; eassumption).
  unfold bind at 1, get at 1. cbn [settings set_root fresh].
  erewrite bind_ok by (apply FastAPI_new_run; assumption).
  match goal with
  | |- context [set_app (Some ?a0) ?w0] =>
      set (a := a0); set (w1 := set_app (Some a0) w0)
  end.
  assert (H1h : root_handlers w1 = [mkHandler Stderr 0]) by reflexivity.
  assert (H1s : settings w1 = s) by reflexivity.
  destruct (truthy (OTEL_EXPORTER_OTLP_ENDPOINT s)) eqn:Et.
  - cbn [negb orb] in Hacc.
    destruct (setup_tracing_enabled w1 a H1h Et Hacc eq_refl eq_refl
                eq_refl) as (d & E).
    erewrite bind_ok by exact E.
    match goal with
    | |- context [after_call ?m ?ev ?kw d ?w0] =>
        set (w2 := after_call m ev kw d w0)
    end.
    assert (H2 : app w2 = Some
              (with_middleware (user_middleware a) true a)).
    { unfold w2, after_call.
      destruct (_ <=? _)%nat; reflexivity. }
    erewrite bind_ok by (apply setup_metrics_run; exact H2).
    repeat (erewrite bind_ok by (apply add_api_route_run; reflexivity)).
    eexists. split.
    { apply add_api_route_run. reflexivity. }
    unfold started, served_app. rewrite Et. unfold w2, after_call.
    destruct (_ <=? _)%nat; repeat split; reflexivity.
  - destruct (setup_tracing_disabled w1 H1h) as (d & E).
    { change (OTEL_EXPORTER_OTLP_ENDPOINT s = EmptyString).
      revert Et. destruct (OTEL_EXPORTER_OTLP_ENDPOINT s);
        [auto|discriminate]. }
    erewrite bind_ok by exact E.
    match goal with
    | |- context [after_call ?m ?ev ?kw d ?w0] =>
        set (w2 := after_call m ev kw d w0)
    end.
    assert (H2 : app w2 = Some a).
    { unfold w2, after_call.
      destruct (_ <=? _)%nat; reflexivity. }
    erewrite bind_ok by (apply setup_metrics_run; exact H2).
    repeat (erewrite bind_ok by (apply add_api_route_run; reflexivity)).
    eexists. split.
    { apply add_api_route_run. reflexivity. }
    unfold started, served_app. rewrite Et. unfold w2, after_call.
    destruct (_ <=? _)%nat; repeat split; reflexivity.
Qed.

Lemma main_refused (amb : Ambient) (s : Settings) (n : nat) :
  _checkLevel (upper (LOG_LEVEL s)) = Ok n ->
  startable amb s = false ->
  exists e w', main (fresh amb s) = (Err e, w').
Proof.
  intros Hn Hf. unfold main.
  erewrite bind_ok by (apply setup_logging_run; eassumption).
  unfold bind at 1, get at 1. cbn [settings set_root fresh].
  unfold startable in Hf.
  destruct (truthy (APP_NAME s)) eqn:Htitle.
  2: { do 2 eexists. apply bind_err. unfold FastAPI_new.
       rewrite Htitle. reflexivity. }
  destruct (truthy (APP_VERSION s)) eqn:Hversion.
  2: { do 2 eexists. apply bind_err. unfold FastAPI_new.
       rewrite Htitle, Hversion. reflexivity. }
  erewrite bind_ok by (apply FastAPI_new_run; assumption).
  cbn [andb] in Hf.
  destruct (truthy (OTEL_EXPORTER_OTLP_ENDPOINT s)) eqn:Et;
    [|discriminate Hf].
  cbn [negb orb] in Hf.
  match goal with
  | |- context [set_app (Some ?a0) ?w0] => set (w1 := set_app (Some a0) w0)
  end.
  destruct (setup_tracing_refused w1 Et Hf eq_refl) as (w' & E).
  do 2 eexists. apply bind_err. exact E.
Qed.


Lemma boot_inv amb decode_servers environ dotenv (w : World) :
  boot amb decode_servers environ dotenv = Ok w ->
  exists s n,
    Settings_new decode_servers environ dotenv = Ok s
    /\ _checkLevel (upper (LOG_LEVEL s)) = Ok n
    /\ started amb s n w.
Proof.
  unfold boot. destruct (Settings_new _ _ _) as [s|e]; [|discriminate].
  destruct (_checkLevel (upper (LOG_LEVEL s))) as [n|e] eqn:Hn.
  - destruct (startable amb s) eqn:Ht.
    + destruct (main_run amb s n Hn Ht) as (w' & E & Hw). rewrite E.
      intros [= <-]. now exists s, n.
    + destruct (main_refused amb s n Hn Ht) as (e & w' & E).
      rewrite E. discriminate.
  - assert (E : exists w', main (fresh amb s) = (Err e, w')).
    { eexists. unfold main. apply bind_err.
      unfold setup_logging, basicConfig, bind, get, modify, raise, ret.
      cbn. rewrite Hn. reflexivity. }
    destruct E as (w' & E). rewrite E. discriminate.
Qed.

(** ** Requests *)

(** What holds of every state of the serving process. *)
Definition serving (w : World) : Prop :=
  root_handlers w = [mkHandler Stderr 0]
  /\ _checkLevel (upper (LOG_LEVEL (settings w))) = Ok (root_level w)
  /\ stdout w = []
  /\ app w = Some (served_app (settings w))
  /\ providers w =
       (if truthy (OTEL_EXPORTER_OTLP_ENDPOINT (settings w))
        then [the_provider (settings w)] else [])
  /\ tracer_provider w =
       (if truthy (OTEL_EXPORTER_OTLP_ENDPOINT (settings w))
        then Some 0 else None)
  /\ exporters w =
       (if truthy (OTEL_EXPORTER_OTLP_ENDPOINT (settings w))
        then [OTLPSpanExporter (OTEL_EXPORTER_OTLP_ENDPOINT (settings w))]
        else []).

Lemma started_serving amb s n w :
  _checkLevel (upper (LOG_LEVEL s)) = Ok n -> started amb s n w -> serving w.
Proof.
  unfold started, serving. intros Hn H. decompose [and] H. subst.
  repeat split; auto.
Qed.

Lemma frame_serving (w w' : World) : frame w w' -> serving w -> serving w'.
Proof.
  unfold frame, serving.
  intros (Fa & Fs & Fl & Fh & Fo & Fp & Ft & Fe & Fapp).
  rewrite Fs, Fl, Fh, Fo, Fp, Ft, Fe, Fapp. tauto.
Qed.

Lemma JSONResponse_run (status : nat) (content : value) (w : World) :
  JSONResponse status content w
  = (if encodable content
     then Ok (mkResponse status (JSONBody content))
     else Err (ValueError "content"), w).
Proof. unfold JSONResponse. destruct (encodable content); reflexivity. Qed.

Lemma run_endpoint_total (e : Endpoint) (req : Request) (w : World) :
  root_handlers w = [mkHandler Stderr 0] ->
  exists res w', run_endpoint e req w = (res, w') /\ frame w w'.
Proof.
  intros Hh. destruct e; cbn [run_endpoint];
    try (do 2 eexists; split; [reflexivity|apply frame_refl]).
  - destruct (validate (req_body req)) as [payload|errors].
    + destruct (echo_run payload w Hh) as (d1 & d2 & E).
      do 2 eexists. split.
      * erewrite bind_ok by exact E. apply JSONResponse_run.
      * eapply frame_trans; apply after_call_frame.
    + do 2 eexists. split; [apply JSONResponse_run|apply frame_refl].
  - destruct (health_check_run w Hh) as (d & E).
    do 2 eexists. split.
    + erewrite bind_ok by exact E. apply JSONResponse_run.
    + apply after_call_frame.
  - destruct (ready_check_run w Hh) as (d & E).
    do 2 eexists. split.
    + erewrite bind_ok by exact E. apply JSONResponse_run.
    + apply after_call_frame.
Qed.

Lemma handle_request_total (req : Request) (w : World) :
  serving w ->
  exists r w', handle_request req w = (Ok r, w') /\ frame w w'.
Proof.
  intros (Hh & _ & _ & Ha & _).
  unfold handle_request, the_app.
  unfold bind at 1. unfold bind at 1. unfold get at 1. rewrite Ha.
  unfold ret at 1.
  destruct (route_for _ req) as [r| |].
  - destruct (run_endpoint_total (endpoint r) req w Hh)
      as (res & w' & E & F).
    rewrite E. destruct res; do 2 eexists; (split; [reflexivity|exact F]).
  - do 2 eexists. split; [reflexivity|apply frame_refl].
  - do 2 eexists. split; [reflexivity|apply frame_refl].
Qed.

Lemma reachable_serving (w : World) : reachable w -> serving w.
Proof.
  induction 1 as [amb dec environ dotenv w Hb | w req Hr IH].
  - destruct (boot_inv _ _ _ _ _ Hb) as (s & n & _ & Hn & Hw).
    eapply started_serving; eauto.
  - destruct (handle_request_total req w IH) as (r & w' & E & F).
    rewrite E. cbn [snd]. eapply frame_serving; eauto.
Qed.

Lemma serve_frame (reqs : list Request) (w : World) :
  serving w ->
  frame w (snd (serve reqs w))
  /\ length (fst (serve reqs w)) = length reqs.
Proof.
  revert w. induction reqs as [|req rest IH]; intros w Hw.
  - split; [apply frame_refl|reflexivity].
  - cbn [serve].
    destruct (handle_request_total req w Hw) as (r & w' & E & F).
    rewrite E.
    destruct (IH w' (frame_serving _ _ F Hw)) as (F' & Hl).
    destruct (serve rest w') as [rs w'']. cbn [fst snd] in *.
    split; [eapply frame_trans; eauto|cbn [length]; congruence].
Qed.

(** ** Settings *)

(** The value of the last variable in [vars] whose name, in lower case, is
    [name]. *)
Fixpoint last_binding {V} (name : string) (vars : list (string * V))
  : option V :=
  match vars with
  | [] => None
  | (k, v) :: r =>
      match last_binding name r with
      | Some x => Some x
      | None => if String.eqb (lower k) name then Some v else None
      end
  end.

(** The override of a setting, in the words of its sources: the last
    environment variable of that name, compared without case; failing
    that, the last dotenv entry of that name if it carries a value. *)
Definition override_of (environ : list (string * string))
  (dotenv : option (list (string * option string))) (field_name : string)
  : option string :=
  match last_binding (lower field_name) environ with
  | Some v => Some v
  | None =>
      match dotenv with
      | Some vars =>
          match last_binding (lower field_name) vars with
          | Some (Some v) => Some v
          | _ => None
          end
      | None => None
      end
  end.

Lemma parse_env_vars_get (name : string)
  (vars : list (string * option string)) (acc : env_vars) :
  dict_get name
    (fold_left (fun acc kv => dict_set (lower (fst kv)) (snd kv) acc) vars acc)
  = match last_binding name vars with
    | Some v => Some v
    | None => dict_get name acc
    end.
Proof.
  revert acc. induction vars as [|[k v] r IH]; intros acc; cbn; auto.
  rewrite IH. destruct (last_binding name r); auto.
  destruct (String.eqb_spec (lower k) name) as [<-|Hne].
  - apply dict_get_set_same.
  - apply dict_get_set_other. congruence.
Qed.

Lemma last_binding_map {V W} (f : V -> W) (name : string)
  (vars : list (string * V)) :
  last_binding name (map (fun kv => (fst kv, f (snd kv))) vars)
  = option_map f (last_binding name vars).
Proof.
  induction vars as [|[k v] r IH]; cbn; auto.
  rewrite IH. destruct (last_binding name r); cbn; auto.
  destruct (String.eqb (lower k) name); auto.
Qed.

Lemma source_value_override environ dotenv (field_name : string) :
  source_value environ dotenv field_name
  = override_of environ dotenv field_name.
Proof.
  unfold source_value, override_of, get_field_value, EnvSettingsSource,
    DotEnvSettingsSource, parse_env_vars.
  rewrite parse_env_vars_get, last_binding_map.
  destruct (last_binding (lower field_name) environ); cbn; auto.
  destruct dotenv as [vars|]; cbn; auto.
  rewrite parse_env_vars_get.
  destruct (last_binding (lower field_name) vars) as [[v|]|]; auto.
Qed.




Lemma Settings_new_ext decode_servers environ dotenv environ' dotenv' :
  (forall f, In f field_names ->
     override_of environ dotenv f = override_of environ' dotenv' f) ->
  Settings_new decode_servers environ dotenv
  = Settings_new decode_servers environ' dotenv'.
Proof.
  intros H.
  assert (Hs : forall f, In f field_names ->
            source_value environ dotenv f = source_value environ' dotenv' f).
  { intros f Hf. rewrite !source_value_override. auto. }
  unfold Settings_new, servers_field, str_field.
  rewrite !(Hs "SERVERS"), !(Hs "APP_NAME"), !(Hs "LOG_LEVEL"),
    !(Hs "APP_VERSION"), !(Hs "CONTACT_NAME"), !(Hs "CONTACT_URL"),
    !(Hs "CONTACT_EMAIL"), !(Hs "OTEL_EXPORTER_OTLP_ENDPOINT");
    (reflexivity || (cbn; tauto)).
Qed.

(** ** A request on one of main.py's routes *)

Lemma handle_request_route (req : Request) (w : World) (r : Route) :
  serving w ->
  route_for main_routes req = FULL r ->
  handle_request req w =
    match run_endpoint (endpoint r) req w with
    | (Ok x, w') => (Ok (for_method (req_method req) x), w')
    | (Err _, w') =>
        (Ok (for_method (req_method req)
               (mkResponse 500 (PlainText "Internal Server Error"))), w')
    end.
Proof.
  intros (_ & _ & _ & Ha & _) Hr.
  unfold handle_request, the_app.
  unfold bind at 1. unfold bind at 1. unfold get at 1. rewrite Ha.
  unfold ret at 1.
  change (routes (served_app (settings w))) with main_routes. rewrite Hr.
  destruct (run_endpoint (endpoint r) req w) as [[x|e] w']; reflexivity.
Qed.

Definition echo_request (b : option value) : Request :=
  mkRequest "POST" "/echo" b.

(** The answer when an exception escapes the application. *)
Definition server_error : Response :=
  mkResponse 500 (PlainText "Internal Server Error").

Lemma echo_output_encodable (s : string) :
  encodable (jsonable [("output", "Echo: " ++ s)]) = utf8_encodable s.
Proof.
  unfold jsonable. cbn [map fst snd encodable forallb].
  change (utf8_encodable "output") with true. cbn [andb].
  rewrite andb_true_r. reflexivity.
Qed.

Lemma echo_request_valid (b : option value) (payload : ToolInput)
  (w : World) :
  serving w ->
  validate b = inl payload ->
  exists d1 d2,
    handle_request (echo_request b) w =
      (Ok (if utf8_encodable (input payload)
           then mkResponse 200
                  (JSONBody
                     (JDict [("output", JStr ("Echo: " ++ input payload))]))
           else server_error),
       after_call info "echo.response"
         [("output", "Echo: " ++ input payload)] d2
         (after_call info "echo.request" [("input", input payload)] d1 w)).
Proof.
  intros Hw Hv.
  destruct (echo_run payload w (proj1 Hw)) as (d1 & d2 & E).
  exists d1, d2.
  rewrite (handle_request_route (echo_request b) w
             (mkRoute "/echo" ["POST"] (Some "echo") None ["Echo"] ep_echo)
             Hw eq_refl).
  cbn [endpoint run_endpoint echo_request req_body req_method].
  rewrite Hv. erewrite bind_ok by exact E.
  rewrite JSONResponse_run, echo_output_encodable.
  destruct (utf8_encodable (input payload)); reflexivity.
Qed.

Lemma echo_request_invalid (b : option value) (errors : list value)
  (w : World) :
  serving w ->
  validate b = inr errors ->
  handle_request (echo_request b) w =
    (Ok (if encodable (JDict [("detail", JList errors)])
         then mkResponse 422 (JSONBody (JDict [("detail", JList errors)]))
         else server_error), w).
Proof.
  intros Hw Hv.
  rewrite (handle_request_route (echo_request b) w
             (mkRoute "/echo" ["POST"] (Some "echo") None ["Echo"] ep_echo)
             Hw eq_refl).
  cbn [endpoint run_endpoint echo_request req_body req_method].
  rewrite Hv, JSONResponse_run.
  destruct (encodable (JDict [("detail", JList errors)])); reflexivity.
Qed.


Lemma validate_input (d : dict value) (v : value) :
  dict_get "input" d = Some v ->
  validate (Some (JDict d)) =
    match v with
    | JStr s => inl (mkToolInput s)
    | _ => inr [error_entry "string_type" ["body"; "input"]
                  "Input should be a valid string" v]
    end.
Proof. intros H. cbn. rewrite H. destruct v; reflexivity. Qed.

Lemma monitoring_request (req : Request) (r : Route) (w : World)
  (ev : string) :
  serving w ->
  route_for main_routes req = FULL r ->
  (endpoint r = ep_health_check /\ ev = "health.check"
   \/ endpoint r = ep_ready_check /\ ev = "ready.check") ->
  exists d,
    handle_request req w =
      (Ok (for_method (req_method req)
             (mkResponse 200 (JSONBody (JDict [("status", JStr "ok")])))),
       after_call info ev [] d w).
Proof.
  intros Hw Hr He.
  rewrite (handle_request_route req w r Hw Hr).
  destruct He as [[-> ->]|[-> ->]]; cbn [run_endpoint].
  - destruct (health_check_run w (proj1 Hw)) as (d & E).
    exists d. erewrite bind_ok by exact E. rewrite JSONResponse_run.
    reflexivity.
  - destruct (ready_check_run w (proj1 Hw)) as (d & E).
    exists d. erewrite bind_ok by exact E. rewrite JSONResponse_run.
    reflexivity.
Qed.

(** ** Concrete surroundings for worked instances *)

Definition sample_clock (n : nat) : datetime :=
  mkDatetime 2024 1 2 3 4 5 (N.of_nat n).

Definition sample_ambient : Ambient :=
  mkAmbient sample_clock (fun _ => "stack") (fun _ => None) (fun _ => true).

Definition no_decoder (raw : string) : option (list (dict string)) := None.


(** A surrounding in which calls are made while an exception is handled. *)
Definition handling_ambient : Ambient :=
  mkAmbient sample_clock (fun _ => "stack")
    (fun _ => Some "ZeroDivisionError") (fun _ => true).

(** The process started with an empty environment and no dotenv file. *)
Definition sample_world : World :=
  match boot sample_ambient no_decoder [] None with
  | Ok w => w
  | Err _ => fresh sample_ambient defaults
  end.

Lemma sample_world_reachable : reachable sample_world.
Proof.
  apply (reach_boot sample_ambient no_decoder [] None). vm_compute.
  reflexivity.
Qed.

(** The same process, every call of which is made from an [except] block. *)
Definition handling_world : World :=
  match boot handling_ambient no_decoder [] None with
  | Ok w => w
  | Err _ => fresh handling_ambient defaults
  end.

Lemma handling_world_reachable : reachable handling_world.
Proof.
  apply (reach_boot handling_ambient no_decoder [] None). vm_compute.
  reflexivity.
Qed.


End Facts.

(* ------------------------------------------------------------------ *)
(** * The service's contract *)

Module Service.
Import Py Config Runtime Logging Lib Json Main Facts.

#[local] Arguments dumps : simpl never.
#[local] Arguments isoformat : simpl never.
#[local] Arguments String.append : simpl never.
#[local] Arguments upper : simpl never.

Definition ok_body : Body := JSONBody (JDict [("status", JStr "ok")]).





(** C3.  In every state of the serving process GET /health and
    HEAD /health are both answered with status 200; the GET answer's body
    is [{"status": "ok"}], the HEAD answer's body is empty. *)
Theorem health_get_and_head (w : World) (b : option value) :
  reachable w ->
  exists w1 w2,
    handle_request (mkRequest "GET" "/health" b) w
      = (Ok (mkResponse 200 ok_body), w1)
    /\ handle_request (mkRequest "HEAD" "/health" b) w
       = (Ok (mkResponse 200 EmptyBody), w2).
Proof.
  intros Hw. apply reachable_serving in Hw.
  destruct (monitoring_request (mkRequest "GET" "/health" b)
              (mkRoute "/health" ["GET"] (Some "health_check_get")
                 (Some "Health Check") ["Monitoring"] ep_health_check)
              w "health.check" Hw eq_refl) as (d1 & E1); [now left|].
  destruct (monitoring_request (mkRequest "HEAD" "/health" b)
              (mkRoute "/health" ["HEAD"] (Some "health_check_head")
                 (Some "Health Check (HEAD)") ["Monitoring"] ep_health_check)
              w "health.check" Hw eq_refl) as (d2 & E2); [now left|].
  do 2 eexists. split; [exact E1|exact E2].
Qed.

(** C4.  In every state of the serving process GET /ready is answered with
    status 200 and the body [{"status": "ok"}], and [ready_check] returns
    the very value [health_check] returns, the constant status "ok". *)
Theorem ready_same_as_health (w : World) (b : option value) :
  reachable w ->
  (exists w',
     handle_request (mkRequest "GET" "/ready" b) w
     = (Ok (mkResponse 200 ok_body), w'))
  /\ fst (ready_check w) = Ok [("status", "ok")]
  /\ fst (ready_check w) = fst (health_check w).
Proof.
  intros Hw. apply reachable_serving in Hw.
  destruct (monitoring_request (mkRequest "GET" "/ready" b)
              (mkRoute "/ready" ["GET"] (Some "ready_check")
                 (Some "Readiness Check") ["Monitoring"] ep_ready_check)
              w "ready.check" Hw eq_refl) as (d & E); [now right|].
  destruct (ready_check_run w (proj1 Hw)) as (d1 & E1).
  destruct (health_check_run w (proj1 Hw)) as (d2 & E2).
  rewrite E1, E2. repeat split. eexists. exact E.
Qed.

(** C10.  Two POST /echo bodies that are objects with the same value under
    [input] get the same answer and leave the same state, whatever other
    keys they carry; when that value is a string the request is not turned
    away (the answer is not 422) and, the text being encodable, it is the
    200 echo of it: the other keys are ignored, not rejected. *)
Theorem echo_depends_on_input_only (w : World) (d1 d2 : dict value)
  (v : value) :
  reachable w ->
  dict_get "input" d1 = Some v ->
  dict_get "input" d2 = Some v ->
  handle_request (echo_request (Some (JDict d1))) w
  = handle_request (echo_request (Some (JDict d2))) w
  /\ (forall s, v = JStr s ->
      exists r,
        fst (handle_request (echo_request (Some (JDict d1))) w) = Ok r
        /\ status_code r <> 422
        /\ (utf8_encodable s = true ->
            r = mkResponse 200
                  (JSONBody (JDict [("output", JStr ("Echo: " ++ s))])))).
Proof.
  intros Hw H1 H2. apply reachable_serving in Hw.
  pose proof (validate_input d1 v H1) as V1.
  pose proof (validate_input d2 v H2) as V2.
  split.
  - rewrite !(handle_request_route (echo_request _) w
                (mkRoute "/echo" ["POST"] (Some "echo") None ["Echo"] ep_echo)
                Hw eq_refl).
    cbn [endpoint run_endpoint echo_request req_body req_method].
    now rewrite V1, V2.
  - intros s ->.
    destruct (echo_request_valid (Some (JDict d1)) (mkToolInput s) w Hw V1)
      as (x1 & x2 & E).
    rewrite E. cbn [fst input].
    destruct (utf8_encodable s); eexists; (split; [reflexivity|]); split;
      solve [discriminate | reflexivity | intros _; reflexivity].
Qed.



Lemma after_call_below m ev kw d w :
  method_level m < root_level w ->
  after_call m ev kw d w = tick (record_call (mkLogCall m ev kw) w).
Proof.
  intros H. unfold after_call.
  destruct (Nat.leb_spec (root_level w) (method_level m)); [lia|reflexivity].
Qed.

(** C9.  With LOG_LEVEL at its default "WARN", every log call made while
    answering a request on /echo, /health or /ready is an [info] call,
    below the level of the root logger, and the request writes nothing to
    standard error or standard output. *)
Theorem default_level_drops_handler_events (w : World) (req : Request) :
  reachable w ->
  LOG_LEVEL (settings w) = "WARN" ->
  In (req_method req, req_path req)
    [("POST", "/echo"); ("GET", "/health"); ("HEAD", "/health");
     ("GET", "/ready")] ->
  exists r w' calls,
    handle_request req w = (Ok r, w')
    /\ stderr w' = stderr w /\ stdout w' = stdout w
    /\ log_calls w' = (log_calls w ++ calls)%list
    /\ Forall (fun c => lc_method c = info
                        /\ method_level (lc_method c) < root_level w) calls.
Proof.
  intros Hr Hl Hin. apply reachable_serving in Hr.
  assert (Hlvl : root_level w = 30).
  { destruct Hr as (_ & Hc & _). rewrite Hl in Hc. now injection Hc. }
  assert (Hinfo : forall c, lc_method c = info ->
            lc_method c = info /\ method_level (lc_method c) < root_level w).
  { intros c ->. rewrite Hlvl. cbn. split; [reflexivity|lia]. }
  assert (Hq : forall ev kw d w0, root_level w0 = root_level w ->
            after_call info ev kw d w0
            = tick (record_call (mkLogCall info ev kw) w0)).
  { intros. apply after_call_below. cbn. lia. }
  destruct req as [m p b]. cbn [req_method req_path] in Hin.
  destruct Hin as [E|[E|[E|[E|[]]]]]; injection E as <- <-.
  - destruct (validate b) as [payload|errors] eqn:Hv.
    + destruct (echo_request_valid b payload w Hr Hv) as (d1 & d2 & E).
      unfold echo_request in E. rewrite E.
      rewrite (Hq _ _ d1 w eq_refl). rewrite Hq by reflexivity.
      do 3 eexists. split; [reflexivity|]. cbn.
      repeat split.
      * rewrite <- app_assoc. reflexivity.
      * repeat constructor; apply Hinfo; reflexivity.
    + pose proof (echo_request_invalid b errors w Hr Hv) as E.
      unfold echo_request in E. rewrite E.
      eexists _, w, []. rewrite app_nil_r. repeat split. constructor.
  - destruct (monitoring_request (mkRequest "GET" "/health" b)
                (mkRoute "/health" ["GET"] (Some "health_check_get")
                   (Some "Health Check") ["Monitoring"] ep_health_check)
                w "health.check" Hr eq_refl) as (d & E); [now left|].
    rewrite E, (Hq _ _ d w eq_refl).
    do 3 eexists. split; [reflexivity|]. cbn. repeat split.
    repeat constructor; apply Hinfo; reflexivity.
  - destruct (monitoring_request (mkRequest "HEAD" "/health" b)
                (mkRoute "/health" ["HEAD"] (Some "health_check_head")
                   (Some "Health Check (HEAD)") ["Monitoring"]
                   ep_health_check)
                w "health.check" Hr eq_refl) as (d & E); [now left|].
    rewrite E, (Hq _ _ d w eq_refl).
    do 3 eexists. split; [reflexivity|]. cbn. repeat split.
    repeat constructor; apply Hinfo; reflexivity.
  - destruct (monitoring_request (mkRequest "GET" "/ready" b)
                (mkRoute "/ready" ["GET"] (Some "ready_check")
                   (Some "Readiness Check") ["Monitoring"] ep_ready_check)
                w "ready.check" Hr eq_refl) as (d & E); [now right|].
    rewrite E, (Hq _ _ d w eq_refl).
    do 3 eexists. split; [reflexivity|]. cbn. repeat split.
    repeat constructor; apply Hinfo; reflexivity.
Qed.


(** C6 (amended).  In every state of the serving process a call on the
    logger with a field named [self], [event] or [method_name] raises a
    TypeError and writes nothing.  Every other call returns after
    rendering one dict to one JSON text without a line break.  The dict
    holds the clock reading in ISO format with the suffix Z under
    [timestamp], the name of the method, in lower case as the method is
    spelt, under [level], the event, and every field of the caller except
    those the processors set or consume themselves: [level], [timestamp],
    [stack_info] and [exc_info] always, [stack] when [stack_info] is
    truthy, [exception] when [exc_info] is truthy and an exception is
    being handled.  When the method's level is at or above the level named
    by LOG_LEVEL, that text and a line terminator are appended to standard
    error; below it nothing is written and nothing is kept for later: the
    state differs only in the count of clock readings and the record of
    calls.  Standard output is never written. *)
Theorem log_call_renders_to_stderr (w : World) (m : Method) (ev : string)
  (kw : dict string) :
  reachable w ->
  (forall name, collision kw = Some name ->
     exists w',
       logger_call m ev kw w = (Err (TypeError name), w')
       /\ stderr w' = stderr w /\ stdout w' = stdout w)
  /\ (collision kw = None ->
      exists lvl d w',
        _checkLevel (upper (LOG_LEVEL (settings w))) = Ok lvl
        /\ logger_call m ev kw w = (Ok tt, w')
        /\ dict_get "timestamp" d
           = Some (isoformat (clock (ambient w) (ticks w)) ++ "Z")
        /\ dict_get "level" d = Some (method_name m)
        /\ dict_get "event" d = Some ev
        /\ (forall k v,
              ~ In k ["level"; "timestamp"; "stack_info"; "exc_info"] ->
              (k = "stack" ->
               flag "stack_info" (dict_update [] kw) = false) ->
              (k = "exception" ->
               flag "exc_info" (dict_update [] kw) = true ->
               exc_text (ambient w) (S (ticks w)) = None) ->
              dict_get k (dict_update [] kw) = Some v ->
              dict_get k d = Some v)
        /\ occurs newline (dumps d) = false
        /\ stdout w' = stdout w
        /\ (lvl <= method_level m ->
            stderr w'
            = (stderr w
               ++ [(dumps d ++ String newline EmptyString)%string])%list)
        /\ (method_level m < lvl -> stderr w' = stderr w)
        /\ frame w w').
Proof.
  intros Hr. apply reachable_serving in Hr.
  destruct Hr as (Hh & Hc & _). split.
  - intros name Hkw. eexists.
    split; [apply logger_call_refused; exact Hkw|]. split; reflexivity.
  - intros Hkw.
    destruct (logger_call_run m ev kw w Hh Hkw)
      as (d & E & Ht & Hl & He & Hk).
    exists (root_level w), d, (after_call m ev kw d w).
    pose proof (after_call_frame m ev kw d w) as F.
    split; [exact Hc|]. split; [exact E|]. split; [exact Ht|].
    split; [exact Hl|]. split; [exact He|].
    split.
    { intros k v H1 H2 H3. apply Hk. repeat split; assumption. }
    split; [apply dumps_no_newline|]. split; [apply F|].
    split; [|split; [|exact F]].
    + intros Hle. rewrite after_call_stderr.
      destruct (Nat.leb_spec (root_level w) (method_level m));
        [reflexivity|lia].
    + intros Hlt. rewrite after_call_stderr.
      destruct (Nat.leb_spec (root_level w) (method_level m));
        [lia|reflexivity].
Qed.

(** C6 as stated fails.  In the process started with the default settings
    (level WARN) a [warning] call, which is at the threshold, leaves
    standard output empty: its line goes to standard error, and the level
    in it reads [warning], in lower case.  Not every field of the caller
    is in the line: one named [level] or [timestamp] is replaced by the
    method's name and the clock reading, [stack_info] and [exc_info] are
    taken out, a truthy [stack_info] replaces what the caller put under
    [stack], a truthy [exc_info] in a call made from an [except] block
    replaces what the caller put under [exception], and a field named
    [self], [event] or [method_name] makes the call raise. *)
Lemma warning_line_on_stderr_lowercase :
  reachable sample_world
  /\ _checkLevel (upper (LOG_LEVEL (settings sample_world)))
     = Ok (method_level warning)
  /\ ~ (exists d,
         stdout (snd (logger_call warning "disk.full" [("path", "/var")]
                        sample_world))
         = (stdout sample_world
            ++ [(dumps d ++ String newline EmptyString)%string])%list)
  /\ stderr (snd (logger_call warning "disk.full" [("path", "/var")]
                    sample_world))
     = [(dumps [("path", "/var"); ("event", "disk.full");
                ("level", "warning");
                ("timestamp", "2024-01-02T03:04:05.000001Z")]
         ++ String newline EmptyString)%string]
  /\ stderr (snd (logger_call warning "disk.full" [("path", "/var")]
                    sample_world))
     <> [(dumps [("path", "/var"); ("event", "disk.full");
                 ("level", "WARNING");
                 ("timestamp", "2024-01-02T03:04:05.000001Z")]
          ++ String newline EmptyString)%string]
  /\ stderr (snd (logger_call error "disk.full" [("level", "custom")]
                    sample_world))
     = [(dumps [("level", "error"); ("event", "disk.full");
                ("timestamp", "2024-01-02T03:04:05.000001Z")]
         ++ String newline EmptyString)%string]
  /\ stderr (snd (logger_call error "disk.full" [("timestamp", "noon")]
                    sample_world))
     = [(dumps [("timestamp", "2024-01-02T03:04:05.000001Z");
                ("event", "disk.full"); ("level", "error")]
         ++ String newline EmptyString)%string]
  /\ stderr (snd (logger_call error "disk.full"
                    [("stack_info", ""); ("exc_info", "")] sample_world))
     = [(dumps [("event", "disk.full"); ("level", "error");
                ("timestamp", "2024-01-02T03:04:05.000001Z")]
         ++ String newline EmptyString)%string]
  /\ stderr (snd (logger_call error "disk.full"
                    [("stack", "mine"); ("stack_info", "1")] sample_world))
     = [(dumps [("stack", "stack"); ("event", "disk.full");
                ("level", "error");
                ("timestamp", "2024-01-02T03:04:05.000001Z")]
         ++ String newline EmptyString)%string]
  /\ reachable handling_world
  /\ stderr (snd (logger_call error "disk.full"
                    [("exception", "mine"); ("exc_info", "1")]
                    handling_world))
     = [(dumps [("exception", "ZeroDivisionError"); ("event", "disk.full");
                ("level", "error");
                ("timestamp", "2024-01-02T03:04:05.000001Z")]
         ++ String newline EmptyString)%string]
  /\ (forall name, In name ["self"; "event"; "method_name"] ->
        fst (logger_call error "disk.full" [(name, "x")] sample_world)
        = Err (TypeError name)
        /\ stderr (snd (logger_call error "disk.full" [(name, "x")]
                          sample_world)) = []).
Proof.
  split; [exact sample_world_reachable|].
  split; [vm_compute; reflexivity|].
  split; [|split; [|split; [|split; [|split; [|split; [|split;
    [|split; [|split]]]]]]]].
  - intros (d & H).
    assert (E1 : stdout (snd (logger_call warning "disk.full"
                                [("path", "/var")] sample_world)) = [])
      by (vm_compute; reflexivity).
    assert (E2 : stdout sample_world = []) by (vm_compute; reflexivity).
    rewrite E1, E2 in H. discriminate H.
  - vm_compute. reflexivity.
  - vm_compute. discriminate.
  - vm_compute. reflexivity.
  - vm_compute. reflexivity.
  - vm_compute. reflexivity.
  - vm_compute. reflexivity.
  - exact handling_world_reachable.
  - vm_compute. reflexivity.
  - intros name [<-|[<-|[<-|[]]]]; split; vm_compute; reflexivity.
Qed.

(** ** Worked instances *)

Ltac from_boot :=
  apply (reach_boot sample_ambient no_decoder [] None);
  vm_compute; reflexivity.



Lemma health_get_and_head_sample :
  reachable sample_world
  /\ exists w1 w2,
       handle_request (mkRequest "GET" "/health" None) sample_world
         = (Ok (mkResponse 200 ok_body), w1)
       /\ handle_request (mkRequest "HEAD" "/health" None) sample_world
          = (Ok (mkResponse 200 EmptyBody), w2).
Proof.
  split; [from_boot|].
  apply (health_get_and_head sample_world None). from_boot.
Defined.

Lemma ready_same_as_health_sample :
  reachable sample_world
  /\ (exists w',
        handle_request (mkRequest "GET" "/ready" None) sample_world
        = (Ok (mkResponse 200 ok_body), w'))
  /\ fst (ready_check sample_world) = Ok [("status", "ok")]
  /\ fst (ready_check sample_world) = fst (health_check sample_world).
Proof.
  split; [from_boot|].
  apply (ready_same_as_health sample_world None). from_boot.
Defined.




Lemma log_call_renders_warning :
  reachable sample_world
  /\ collision [("path", "/var")] = None
  /\ exists d w',
       logger_call warning "disk.full" [("path", "/var")] sample_world
       = (Ok tt, w')
       /\ dict_get "level" d = Some "warning"
       /\ dict_get "path" d = Some "/var"
       /\ stdout w' = stdout sample_world.
Proof.
  split; [from_boot|]. split; [reflexivity|].
  destruct (log_call_renders_to_stderr sample_world warning "disk.full"
              [("path", "/var")])
    as (_ & Hcall).
  - from_boot.
  - destruct Hcall as (lvl & d & w' & _ & E & _ & Hl & _ & Hk & _ & Ho & _).
    + reflexivity.
    + exists d, w'. split; [exact E|]. split; [exact Hl|].
      split; [|exact Ho].
      apply Hk; [|discriminate|discriminate|reflexivity].
      intros H. cbn [In] in H.
      repeat (destruct H as [H|H]; [discriminate H|]). exact H.
Defined.

Lemma default_level_drops_health_events :
  reachable sample_world
  /\ LOG_LEVEL (settings sample_world) = "WARN"
  /\ exists r w',
       handle_request (mkRequest "GET" "/health" None) sample_world
       = (Ok r, w')
       /\ stderr w' = stderr sample_world
       /\ stdout w' = stdout sample_world.
Proof.
  split; [from_boot|]. split; [vm_compute; reflexivity|].
  destruct (default_level_drops_handler_events sample_world
              (mkRequest "GET" "/health" None))
    as (r & w' & calls & E & He & Ho & _).
  - from_boot.
  - vm_compute. reflexivity.
  - right. left. reflexivity.
  - exists r, w'. split; [exact E|]. split; [exact He|exact Ho].
Defined.

Lemma echo_ignores_extra_key :
  reachable sample_world
  /\ dict_get "input" [("input", JStr "a"); ("extra", JInt 1)]
     = Some (JStr "a")
  /\ dict_get "input" [("note", JNull); ("input", JStr "a")]
     = Some (JStr "a")
  /\ handle_request
       (echo_request (Some (JDict [("input", JStr "a"); ("extra", JInt 1)])))
       sample_world
     = handle_request
         (echo_request (Some (JDict [("note", JNull); ("input", JStr "a")])))
         sample_world.
Proof.
  split; [from_boot|]. split; [reflexivity|]. split; [reflexivity|].
  apply (echo_depends_on_input_only sample_world
           [("input", JStr "a"); ("extra", JInt 1)]
           [("note", JNull); ("input", JStr "a")] (JStr "a")).
  - from_boot.
  - reflexivity.
  - reflexivity.
Defined.

End Service.

(* ------------------------------------------------------------------ *)
(** * Further properties of the logging path *)

Module Trace.
Import Py Config Runtime Logging Lib Json Main Facts.

#[local] Arguments dumps : simpl never.
#[local] Arguments isoformat : simpl never.
#[local] Arguments String.append : simpl never.
#[local] Arguments upper : simpl never.

Lemma dict_keys_app {V} (a b : dict V) :
  dict_keys (a ++ b)%list = (dict_keys a ++ dict_keys b)%list.
Proof. apply map_app. Qed.

Lemma dict_get_absent {V} (k : string) (d : dict V) :
  ~ In k (dict_keys d) -> dict_get k d = None.
Proof.
  induction d as [|[k' v'] r IH]; cbn; auto.
  intros H. destruct (String.eqb_spec k k') as [->|Hne].
  - exfalso. apply H. now left.
  - apply IH. intros Hin. apply H. now right.
Qed.

Lemma dict_set_absent {V} (k : string) (v : V) (d : dict V) :
  ~ In k (dict_keys d) -> dict_set k v d = (d ++ [(k, v)])%list.
Proof.
  induction d as [|[k' v'] r IH]; cbn; auto.
  intros H. destruct (String.eqb_spec k k') as [->|Hne].
  - exfalso. apply H. now left.
  - rewrite IH; auto.
Qed.

Lemma dict_update_fresh {V} (kw acc : dict V) :
  NoDup (dict_keys kw) ->
  (forall k, In k (dict_keys kw) -> ~ In k (dict_keys acc)) ->
  dict_update acc kw = (acc ++ kw)%list.
Proof.
  unfold dict_update. revert acc.
  induction kw as [|[k v] r IH]; intros acc Hnd Hfresh; cbn.
  - now rewrite app_nil_r.
  - cbn in Hnd. inversion Hnd as [|? ? Hk Hr]; subst.
    rewrite dict_set_absent by (apply Hfresh; now left).
    rewrite IH; auto.
    + now rewrite <- app_assoc.
    + intros k' Hk' Hin. rewrite dict_keys_app in Hin.
      apply in_app_or in Hin as [Hin|[<-|[]]].
      * apply (Hfresh k'); auto. now right.
      * contradiction.
Qed.

Lemma mem_absent (k : string) (l : list string) : ~ In k l -> mem k l = false.
Proof.
  unfold mem. intros H.
  destruct (existsb (String.eqb k) l) eqn:E; auto.
  apply existsb_exists in E as (x & Hin & Hx).
  apply String.eqb_eq in Hx. subst. contradiction.
Qed.

(** Fields a caller can pass without touching the processors' own keys:
    distinct names, none of them a parameter of the logger's methods and
    none of them a chain key. *)
Definition plain_fields (kw : dict string) : Prop :=
  NoDup (dict_keys kw)
  /\ forall k, In k (dict_keys kw) ->
       ~ In k parameter_names /\ ~ In k chain_keys.

Lemma collision_plain (kw : dict string) :
  plain_fields kw -> collision kw = None.
Proof.
  intros (_ & Hk). unfold collision, parameter_names. cbn [find].
  rewrite !mem_absent; [reflexivity| | |];
    intros Hin; apply (proj1 (Hk _ Hin)); cbn; tauto.
Qed.

(** The event dict the chain hands to the renderer for such a call: the
    caller's fields in their order, then event, level and timestamp. *)
Definition rendered (m : Method) (ev : string) (kw : dict string)
  (now : datetime) : dict string :=
  (kw ++ [("event", ev); ("level", method_name m);
          ("timestamp", (isoformat now ++ "Z")%string)])%list.

Lemma process_event_plain (m : Method) (ev : string) (kw : dict string)
  (w : World) :
  plain_fields kw ->
  _process_event (method_name m) ev kw w
  = (Ok (dumps (rendered m ev kw (clock (ambient w) (ticks w)))), tick w).
Proof.
  intros (Hnd & Hk).
  assert (Hout : forall k, In k chain_keys -> ~ In k (dict_keys kw)).
  { intros k Hc Hin. exact (proj2 (Hk k Hin) Hc). }
  unfold _process_event, processors. cbn [run_processors].
  rewrite (dict_update_fresh kw []) by (auto; intros ? ? []).
  cbn [List.app].
  rewrite (dict_set_absent "event")
    by (intros Hin; apply (proj1 (Hk _ Hin)); cbn; tauto).
  set (ts := isoformat (clock (ambient w) (ticks w)) ++ "Z").
  assert (Hkeys : forall k extra,
            In k chain_keys -> ~ In k (dict_keys extra) ->
            ~ In k (dict_keys (kw ++ extra)%list)).
  { intros k extra Hc He Hin. rewrite dict_keys_app in Hin.
    apply in_app_or in Hin as [Hin|Hin]; [exact (Hout k Hc Hin)|auto]. }
  erewrite bind_ok; cycle 1.
  { erewrite bind_ok; cycle 1.
    { unfold add_log_level, ret. rewrite method_name_plain.
      rewrite dict_set_absent; [reflexivity|].
      apply Hkeys; cbn; [tauto|]. intros [H|[]]; discriminate H. }
    erewrite bind_ok; cycle 1.
    { unfold TimeStamper, bind, get, modify, ret.
      rewrite dict_set_absent; [reflexivity|].
      rewrite <- app_assoc. apply Hkeys; cbn; [tauto|].
      intros [H|[H|[]]]; discriminate H. }
    erewrite bind_ok; cycle 1.
    { unfold StackInfoRenderer, bind, get, ret.
      rewrite dict_get_absent; [reflexivity|].
      rewrite <- !app_assoc. apply Hkeys; cbn; [tauto|].
      intros [H|[H|[H|[]]]]; discriminate H. }
    erewrite bind_ok; cycle 1.
    { unfold format_exc_info, bind, get, ret.
      rewrite dict_get_absent; [reflexivity|].
      rewrite <- !app_assoc. apply Hkeys; cbn; [tauto|].
      intros [H|[H|[H|[]]]]; discriminate H. }
    reflexivity. }
  unfold ret, JSONRenderer, rendered. fold ts.
  rewrite <- !app_assoc. reflexivity.
Qed.

Lemma logger_call_plain (m : Method) (ev : string) (kw : dict string)
  (w : World) :
  root_handlers w = [mkHandler Stderr 0] ->
  plain_fields kw ->
  logger_call m ev kw w
  = (Ok tt,
     after_call m ev kw (rendered m ev kw (clock (ambient w) (ticks w))) w).
Proof.
  intros Hh Hp.
  pose proof (process_event_plain m ev kw
                (record_call (mkLogCall m ev kw) w) Hp) as E.
  unfold logger_call.
  erewrite bind_ok by (unfold modify; reflexivity).
  rewrite (collision_plain kw Hp).
  erewrite bind_ok by exact E.
  unfold Logger_log, after_call, callHandlers, handle.
  cbn [root_level root_handlers tick record_call ambient ticks].
  rewrite Hh. cbn [fold_left h_level h_stream Nat.leb].
  destruct (root_level w <=? method_level m)%nat; reflexivity.
Qed.

(** The state after one [info] call with plain fields. *)
Definition log_step (ev : string) (kw : dict string) (w : World) : World :=
  after_call info ev kw (rendered info ev kw (clock (ambient w) (ticks w))) w.

(** The line such a call writes when the root level admits it. *)
Definition info_line (ev : string) (kw : dict string) (now : datetime)
  : string :=
  dumps (rendered info ev kw now) ++ String newline EmptyString.

Lemma log_step_frame ev kw w : frame w (log_step ev kw w).
Proof. apply after_call_frame. Qed.

Lemma log_step_calls ev kw w :
  log_calls (log_step ev kw w) = (log_calls w ++ [mkLogCall info ev kw])%list.
Proof.
  unfold log_step, after_call.
  destruct (root_level w <=? method_level info)%nat; reflexivity.
Qed.

Lemma log_step_ticks ev kw w : ticks (log_step ev kw w) = S (ticks w).
Proof.
  unfold log_step, after_call.
  destruct (root_level w <=? method_level info)%nat; reflexivity.
Qed.

Lemma log_step_stderr ev kw w :
  stderr (log_step ev kw w)
  = if (root_level w <=? 20)%nat
    then (stderr w ++ [info_line ev kw (clock (ambient w) (ticks w))])%list
    else stderr w.
Proof.
  unfold log_step, after_call, info_line. cbn [method_level].
  destruct (root_level w <=? 20)%nat; reflexivity.
Qed.

Lemma log_step_handlers ev kw w :
  root_handlers (log_step ev kw w) = root_handlers w.
Proof. apply (log_step_frame ev kw w). Qed.

Lemma log_step_level ev kw w : root_level (log_step ev kw w) = root_level w.
Proof. apply (log_step_frame ev kw w). Qed.

Lemma log_step_ambient ev kw w : ambient (log_step ev kw w) = ambient w.
Proof. apply (log_step_frame ev kw w). Qed.

Lemma log_step_app ev kw w : app (log_step ev kw w) = app w.
Proof. apply (log_step_frame ev kw w). Qed.

Lemma log_step_stdout ev kw w : stdout (log_step ev kw w) = stdout w.
Proof. apply (log_step_frame ev kw w). Qed.

Lemma plain_nil : plain_fields [].
Proof. split; [constructor|intros ? []]. Qed.

Lemma plain_one (k v : string) :
  ~ In k parameter_names -> ~ In k chain_keys -> plain_fields [(k, v)].
Proof.
  intros Hp H. split.
  - repeat constructor. intros [].
  - intros k' [<-|[]]. split; assumption.
Qed.

Ltac not_listed :=
  cbn; intros H; repeat (destruct H as [H|H]; [discriminate H|]); exact H.

Lemma info_call_step (ev : string) (kw : dict string) (w : World) :
  root_handlers w = [mkHandler Stderr 0] ->
  plain_fields kw ->
  logger_call info ev kw w = (Ok tt, log_step ev kw w).
Proof. intros Hh Hp. now apply logger_call_plain. Qed.

Lemma echo_exact (payload : ToolInput) (w : World) :
  root_handlers w = [mkHandler Stderr 0] ->
  echo payload w
  = (Ok [("output", "Echo: " ++ input payload)],
     log_step "echo.response" [("output", "Echo: " ++ input payload)]
       (log_step "echo.request" [("input", input payload)] w)).
Proof.
  intros Hh. unfold echo.
  erewrite bind_ok; cycle 1.
  { apply info_call_step; [exact Hh|]. apply plain_one; not_listed. }
  erewrite bind_ok; cycle 1.
  { apply info_call_step; [now rewrite log_step_handlers|].
    apply plain_one; not_listed. }
  reflexivity.
Qed.

Lemma health_check_exact (w : World) :
  root_handlers w = [mkHandler Stderr 0] ->
  health_check w = (Ok [("status", "ok")], log_step "health.check" [] w).
Proof.
  intros Hh. unfold health_check.
  erewrite bind_ok by (apply info_call_step; [exact Hh|apply plain_nil]).
  reflexivity.
Qed.

Lemma ready_check_exact (w : World) :
  root_handlers w = [mkHandler Stderr 0] ->
  ready_check w = (Ok [("status", "ok")], log_step "ready.check" [] w).
Proof.
  intros Hh. unfold ready_check.
  erewrite bind_ok by (apply info_call_step; [exact Hh|apply plain_nil]).
  reflexivity.
Qed.

(** The log calls a request causes, read off the route it reaches. *)
Definition request_events (req : Request) : list (string * dict string) :=
  match route_for main_routes req with
  | FULL r =>
      match endpoint r with
      | ep_echo =>
          match validate (req_body req) with
          | inl payload =>
              [("echo.request", [("input", input payload)]);
               ("echo.response", [("output", "Echo: " ++ input payload)])]
          | inr _ => []
          end
      | ep_health_check => [("health.check", [])]
      | ep_ready_check => [("ready.check", [])]
      | _ => []
      end
  | _ => []
  end.

Definition log_steps (evs : list (string * dict string)) (w : World)
  : World :=
  fold_left (fun acc e => log_step (fst e) (snd e) acc) evs w.

(** The answer to a request, read off the route it reaches. *)
Definition answer (req : Request) : Response :=
  for_method (req_method req)
    match route_for main_routes req with
    | FULL r =>
        match endpoint r with
        | ep_echo =>
            match validate (req_body req) with
            | inl payload =>
                if utf8_encodable (input payload)
                then mkResponse 200
                       (JSONBody
                          (JDict
                             [("output", JStr ("Echo: " ++ input payload))]))
                else server_error
            | inr errors =>
                if encodable (JDict [("detail", JList errors)])
                then mkResponse 422
                       (JSONBody (JDict [("detail", JList errors)]))
                else server_error
            end
        | ep_health_check =>
            mkResponse 200 (JSONBody (JDict [("status", JStr "ok")]))
        | ep_ready_check =>
            mkResponse 200 (JSONBody (JDict [("status", JStr "ok")]))
        | other => mkResponse 200 (Generated other)
        end
    | PARTIAL =>
        mkResponse 405
          (JSONBody (JDict [("detail", JStr "Method Not Allowed")]))
    | NONE => unmatched main_routes req
    end.

Lemma handle_request_exact (req : Request) (w : World) :
  serving w ->
  handle_request req w
  = (Ok (answer req), log_steps (request_events req) w).
Proof.
  intros Hw. pose proof Hw as (Hh & _ & _ & Ha & _).
  unfold answer, request_events.
  destruct (route_for main_routes req) as [r| |] eqn:Hr.
  - rewrite (handle_request_route req w r Hw Hr).
    destruct (endpoint r); cbn [run_endpoint]; try reflexivity.
    + destruct (validate (req_body req)) as [payload|errors].
      * erewrite bind_ok by (apply echo_exact; exact Hh).
        rewrite JSONResponse_run, echo_output_encodable.
        destruct (utf8_encodable (input payload)); reflexivity.
      * rewrite JSONResponse_run.
        destruct (encodable (JDict [("detail", JList errors)]));
          reflexivity.
    + erewrite bind_ok by (apply health_check_exact; exact Hh).
      rewrite JSONResponse_run. reflexivity.
    + erewrite bind_ok by (apply ready_check_exact; exact Hh).
      rewrite JSONResponse_run. reflexivity.
  - unfold handle_request, the_app.
    unfold bind at 1. unfold bind at 1. unfold get at 1. rewrite Ha.
    unfold ret at 1.
    change (routes (served_app (settings w))) with main_routes.
    rewrite Hr. reflexivity.
  - unfold handle_request, the_app.
    unfold bind at 1. unfold bind at 1. unfold get at 1. rewrite Ha.
    unfold ret at 1.
    change (routes (served_app (settings w))) with main_routes.
    rewrite Hr. reflexivity.
Qed.

(** ** What the module body writes *)

Definition startup_message (s : Settings) : string :=
  if truthy (OTEL_EXPORTER_OTLP_ENDPOINT s)
  then "Tracing enabled, exporting to " ++ OTEL_EXPORTER_OTLP_ENDPOINT s
  else disabled_message.

Lemma setup_tracing_exact (w : World) (a : FastAPI) :
  root_handlers w = [mkHandler Stderr 0] ->
  (truthy (OTEL_EXPORTER_OTLP_ENDPOINT (settings w)) = true ->
   exporter_accepts (ambient w) (OTEL_EXPORTER_OTLP_ENDPOINT (settings w))
   = true) ->
  tracer_provider w = None ->
  app w = Some a ->
  _is_instrumented_by_opentelemetry a = false ->
  setup_tracing w
  = (Ok tt,
     if truthy (OTEL_EXPORTER_OTLP_ENDPOINT (settings w))
     then log_step (startup_message (settings w)) [] (traced a w)
     else log_step (startup_message (settings w)) [] w).
Proof.
  intros Hh Hacc Hp Ha Hi. unfold startup_message, setup_tracing.
  unfold bind at 1, get at 1.
  destruct (truthy (OTEL_EXPORTER_OTLP_ENDPOINT (settings w))) eqn:Et;
    cbn [negb].
  - specialize (Hacc eq_refl).
    unfold TracerProvider_new, set_tracer_provider, OTLPSpanExporter_new,
      add_span_processor, instrument_app, the_app, bind, get, modify, ret.
    cbn [tracer_provider set_tracing providers exporters app settings
         ambient root_level root_handlers stdout stderr ticks log_calls].
    rewrite Hp. cbn [tracer_provider set_tracing providers exporters app
                     ambient].
    rewrite Hacc.
    cbn [tracer_provider set_tracing providers exporters app].
    rewrite Ha, Hi, update_at_last.
    cbn [resource span_processors List.app].
    apply (info_call_step _ [] (traced a w)); [exact Hh|apply plain_nil].
  - apply info_call_step; [exact Hh|apply plain_nil].
Qed.

Lemma main_output (amb : Ambient) (s : Settings) (n : nat) (w : World) :
  _checkLevel (upper (LOG_LEVEL s)) = Ok n ->
  main (fresh amb s) = (Ok tt, w) ->
  stderr w
  = (if (n <=? 20)%nat
     then [info_line (startup_message s) [] (clock amb 0)]
     else [])
  /\ ticks w = 1.
Proof.
  intros Hn.
  destruct (startable amb s) eqn:Hstart.
  2: { destruct (main_refused amb s n Hn Hstart) as (e & w' & E).
       rewrite E. discriminate. }
  apply andb_prop in Hstart as (Hboth & Hacc).
  apply andb_prop in Hboth as (Hname & Hversion).
  unfold main.
  erewrite bind_ok by (apply setup_logging_run; eassumption).
  unfold bind at 1, get at 1. cbn [settings set_root fresh].
  erewrite bind_ok by (apply FastAPI_new_run; assumption).
  match goal with
  | |- context [set_app (Some ?a0) ?w0] =>
      set (a := a0); set (w1 := set_app (Some a0) w0)
  end.
  erewrite bind_ok; cycle 1.
  { apply (setup_tracing_exact w1 a); try reflexivity.
    intros Et. change (settings w1) with s in *.
    change (ambient w1) with amb.
    rewrite Et in Hacc. exact Hacc. }
  change (settings w1) with s.
  set (w2 := if truthy (OTEL_EXPORTER_OTLP_ENDPOINT s)
             then log_step (startup_message s) [] (traced a w1)
             else log_step (startup_message s) [] w1).
  assert (H2 : exists a2, app w2 = Some a2
                          /\ stderr w2
                             = (if (n <=? 20)%nat
                                then [info_line (startup_message s) []
                                        (clock amb 0)]
                                else [])
                          /\ ticks w2 = 1).
  { unfold w2. destruct (truthy (OTEL_EXPORTER_OTLP_ENDPOINT s));
      eexists; (split; [rewrite log_step_app; reflexivity|]);
      rewrite log_step_stderr, log_step_ticks; cbn;
      destruct (n <=? 20)%nat; split; reflexivity. }
  destruct H2 as (a2 & Ha2 & He2 & Ht2).
  erewrite bind_ok by (apply setup_metrics_run; exact Ha2).
  repeat (erewrite bind_ok by (apply add_api_route_run; reflexivity)).
  erewrite add_api_route_run by reflexivity.
  intros [= <-]. cbn [stderr ticks set_app]. split; assumption.
Qed.

(** ** Invariant of the logging state *)

(** Every recorded call is an [info] call, the clock was read once per
    call, standard output is empty, and standard error holds one line per
    call when the root level admits [info], none otherwise. *)
Definition tidy (w : World) : Prop :=
  Forall (fun c => lc_method c = info) (log_calls w)
  /\ ticks w = length (log_calls w)
  /\ stdout w = []
  /\ length (stderr w)
     = (if (root_level w <=? 20)%nat then length (log_calls w) else 0).

Lemma log_step_tidy ev kw w : tidy w -> tidy (log_step ev kw w).
Proof.
  intros (Hc & Ht & Ho & He). unfold tidy.
  rewrite log_step_calls, log_step_ticks, log_step_stdout, log_step_stderr,
    log_step_level.
  repeat split.
  - apply Forall_app. split; [exact Hc|]. repeat constructor.
  - rewrite length_app. cbn. lia.
  - exact Ho.
  - destruct (root_level w <=? 20)%nat; [|exact He].
    rewrite !length_app. cbn. lia.
Qed.

Lemma log_steps_tidy evs w : tidy w -> tidy (log_steps evs w).
Proof.
  unfold log_steps. revert w.
  induction evs as [|e r IH]; intros w Hw; cbn; auto.
  apply IH. now apply log_step_tidy.
Qed.

Lemma boot_main amb decode_servers environ dotenv (w : World) :
  boot amb decode_servers environ dotenv = Ok w ->
  exists s, Settings_new decode_servers environ dotenv = Ok s
            /\ main (fresh amb s) = (Ok tt, w).
Proof.
  unfold boot. destruct (Settings_new _ _ _) as [s|e]; [|discriminate].
  destruct (main (fresh amb s)) as [[[]|e] w'] eqn:E; [|discriminate].
  intros [= <-]. now exists s.
Qed.

Lemma boot_tidy amb decode_servers environ dotenv (w : World) :
  boot amb decode_servers environ dotenv = Ok w -> tidy w.
Proof.
  intros Hb.
  destruct (boot_inv _ _ _ _ _ Hb) as (s & n & Hs & Hn & Hw).
  destruct (boot_main _ _ _ _ _ Hb) as (s' & Hs' & Hm).
  assert (s' = s) by congruence. subst s'.
  destruct (main_output amb s n w Hn Hm) as (He & Ht).
  destruct Hw as (_ & _ & Hl & _ & Ho & _ & _ & _ & _ & _ & Hc).
  unfold tidy. rewrite Hc, Ht, Ho, He, Hl. cbn.
  repeat split; auto.
  destruct (n <=? 20)%nat; reflexivity.
Qed.

Lemma reachable_tidy (w : World) : reachable w -> tidy w.
Proof.
  induction 1 as [amb dec environ dotenv w Hb | w req Hr IH].
  - eapply boot_tidy; eauto.
  - rewrite (handle_request_exact req w (reachable_serving w Hr)).
    cbn [snd]. now apply log_steps_tidy.
Qed.

Lemma serve_exact (reqs : list Request) (w : World) :
  serving w ->
  fst (serve reqs w) = map answer reqs
  /\ serving (snd (serve reqs w)).
Proof.
  revert w. induction reqs as [|req rest IH]; intros w Hw; cbn [serve].
  - split; [reflexivity|exact Hw].
  - rewrite (handle_request_exact req w Hw).
    assert (Hw' : serving (log_steps (request_events req) w)).
    { destruct (handle_request_total req w Hw) as (r & w' & E & F).
      rewrite (handle_request_exact req w Hw) in E.
      injection E as _ <-. eapply frame_serving; eauto. }
    destruct (IH _ Hw') as (E & Hs).
    destruct (serve rest _) as [rs w'']. cbn [fst snd map] in *.
    split; [now rewrite E|exact Hs].
Qed.

End Trace.

(* ------------------------------------------------------------------ *)
(** * More of the service's behaviour *)

Module Pipeline.
Import Py Config Runtime Logging Lib Json Main Facts Trace.

#[local] Arguments dumps : simpl never.
#[local] Arguments isoformat : simpl never.
#[local] Arguments String.append : simpl never.
#[local] Arguments upper : simpl never.

Definition terminator : string := String newline EmptyString.

Lemma echo_events (d : dict value) (s : string) :
  dict_get "input" d = Some (JStr s) ->
  request_events (echo_request (Some (JDict d)))
  = [("echo.request", [("input", s)]);
     ("echo.response", [("output", "Echo: " ++ s)])].
Proof.
  intros H. unfold request_events.
  change (route_for main_routes (echo_request (Some (JDict d))))
    with (FULL (mkRoute "/echo" ["POST"] (Some "echo") None ["Echo"]
                  ep_echo)).
  cbn [endpoint echo_request req_body].
  now rewrite (validate_input d (JStr s) H).
Qed.

(** X1.  A POST /echo whose body carries the string [s] under [input]
    makes exactly two calls on the logger, in this order: [info] of
    "echo.request" with the field [input = s], then [info] of
    "echo.response" with the field [output = "Echo: " + s]. *)
Theorem echo_logs_request_then_response (w : World) (d : dict value)
  (s : string) :
  reachable w ->
  dict_get "input" d = Some (JStr s) ->
  log_calls (snd (handle_request (echo_request (Some (JDict d))) w))
  = (log_calls w
       ++ [mkLogCall info "echo.request" [("input", s)];
           mkLogCall info "echo.response"
             [("output", ("Echo: " ++ s)%string)]])%list.
Proof.
  intros Hr Hd.
  rewrite (handle_request_exact _ w (reachable_serving w Hr)).
  rewrite (echo_events d s Hd). cbn [snd log_steps fold_left fst].
  rewrite !log_step_calls, <- app_assoc. reflexivity.
Qed.

(** X2.  GET /health and HEAD /health each make one [info] call of
    "health.check" without fields, GET /ready one of "ready.check". *)
Theorem checks_log_one_event (w : World) (b : option value) :
  reachable w ->
  log_calls (snd (handle_request (mkRequest "GET" "/health" b) w))
  = (log_calls w ++ [mkLogCall info "health.check" []])%list
  /\ log_calls (snd (handle_request (mkRequest "HEAD" "/health" b) w))
     = (log_calls w ++ [mkLogCall info "health.check" []])%list
  /\ log_calls (snd (handle_request (mkRequest "GET" "/ready" b) w))
     = (log_calls w ++ [mkLogCall info "ready.check" []])%list.
Proof.
  intros Hr. apply reachable_serving in Hr.
  rewrite !(handle_request_exact _ w Hr).
  repeat split; cbn [snd]; apply log_step_calls.
Qed.

(** X3.  When LOG_LEVEL names a level that admits [info] (INFO, DEBUG or
    NOTSET), a POST /echo carrying the string [s] appends exactly two
    lines to standard error: the JSON object with [input], the event
    "echo.request", the level and the timestamp, then the one with
    [output], the event "echo.response", the level and the next clock
    reading. *)
Theorem echo_writes_two_lines (w : World) (d : dict value) (s : string)
  (lvl : nat) :
  reachable w ->
  dict_get "input" d = Some (JStr s) ->
  _checkLevel (upper (LOG_LEVEL (settings w))) = Ok lvl ->
  lvl <= 20 ->
  stderr (snd (handle_request (echo_request (Some (JDict d))) w))
  = (stderr w
       ++ [(dumps [("input", s); ("event", "echo.request");
                   ("level", "info");
                   ("timestamp",
                    (isoformat (clock (ambient w) (ticks w)) ++ "Z")%string)]
            ++ terminator)%string;
           (dumps [("output", ("Echo: " ++ s)%string);
                   ("event", "echo.response"); ("level", "info");
                   ("timestamp",
                    (isoformat (clock (ambient w) (S (ticks w)))
                       ++ "Z")%string)]
            ++ terminator)%string])%list.
Proof.
  intros Hr Hd Hl Hle. apply reachable_serving in Hr.
  assert (Hlvl : root_level w = lvl).
  { destruct Hr as (_ & Hc & _). congruence. }
  rewrite (handle_request_exact _ w Hr), (echo_events d s Hd).
  cbn [snd log_steps fold_left fst].
  rewrite !log_step_stderr, !log_step_level, !log_step_ambient,
    !log_step_ticks, Hlvl.
  destruct (Nat.leb_spec lvl 20) as [_|Hgt]; [|lia].
  rewrite <- app_assoc. reflexivity.
Qed.

(** X4.  A call on the logger whose fields have distinct names, none of
    them a parameter of the logger's methods ([self], [event],
    [method_name]) and none of them used by the processors ([level],
    [timestamp], [stack_info], [exc_info]), renders the JSON object of
    those fields in the order given, followed by [event], [level] and
    [timestamp]; that line is what standard error receives when the level
    admits the call. *)
Theorem log_line_layout (w : World) (m : Method) (ev : string)
  (kw : dict string) (lvl : nat) :
  reachable w ->
  plain_fields kw ->
  _checkLevel (upper (LOG_LEVEL (settings w))) = Ok lvl ->
  lvl <= method_level m ->
  exists w',
    logger_call m ev kw w = (Ok tt, w')
    /\ stderr w'
       = (stderr w
            ++ [(dumps (kw ++ [("event", ev); ("level", method_name m);
                               ("timestamp",
                                (isoformat (clock (ambient w) (ticks w))
                                   ++ "Z")%string)])%list
                 ++ terminator)%string])%list.
Proof.
  intros Hr Hp Hl Hle. apply reachable_serving in Hr.
  destruct Hr as (Hh & Hc & _).
  assert (Hlvl : root_level w = lvl) by congruence.
  eexists. split; [apply logger_call_plain; assumption|].
  rewrite after_call_stderr, Hlvl.
  destruct (Nat.leb_spec lvl (method_level m)); [reflexivity|lia].
Qed.

(** X5.  In every state of the serving process every call ever made on
    the logger is an [info] call, the clock has been read exactly once per
    call, standard output is empty, and standard error holds exactly one
    line per call when the root level admits [info] and nothing at all
    otherwise. *)
Theorem service_logs_info_only (w : World) :
  reachable w ->
  Forall (fun c => lc_method c = info) (log_calls w)
  /\ ticks w = length (log_calls w)
  /\ stdout w = []
  /\ length (stderr w)
     = (if (root_level w <=? 20)%nat then length (log_calls w) else 0).
Proof. intros Hr. exact (reachable_tidy w Hr). Qed.

(** X6.  The module body makes one call on the logger, the tracing
    message, and writes nothing else: after start-up standard output is
    empty and standard error holds that one line when LOG_LEVEL admits
    [info], and nothing otherwise (so nothing under the default WARN). *)
Theorem startup_writes_tracing_line_only (amb : Ambient)
  (decode_servers : string -> option (list (dict string)))
  (environ : list (string * string))
  (dotenv : option (list (string * option string))) (w : World) :
  boot amb decode_servers environ dotenv = Ok w ->
  exists lvl,
    _checkLevel (upper (LOG_LEVEL (settings w))) = Ok lvl
    /\ log_calls w = [mkLogCall info (startup_message (settings w)) []]
    /\ stdout w = []
    /\ stderr w
       = (if (lvl <=? 20)%nat
          then [(dumps [("event", startup_message (settings w));
                        ("level", "info");
                        ("timestamp",
                         (isoformat (clock amb 0) ++ "Z")%string)]
                  ++ terminator)%string]
          else []).
Proof.
  intros Hb.
  destruct (boot_inv _ _ _ _ _ Hb) as (s & n & Hs & Hn & Hw).
  destruct (boot_main _ _ _ _ _ Hb) as (s' & Hs' & Hm).
  assert (s' = s) by congruence. subst s'.
  destruct (main_output amb s n w Hn Hm) as (He & _).
  destruct Hw as (_ & Hset & _ & _ & Ho & _ & _ & _ & _ & _ & Hc).
  rewrite Hset. exists n. repeat split; auto.
Qed.

Definition handler_paths : list string := ["/echo"; "/health"; "/ready"].

(** X7.  The answer to a request on /echo, /health or /ready is the same
    in any two states of the serving process, however each was configured
    and whatever it served before: it depends on the request alone. *)
Theorem answers_ignore_state (w1 w2 : World) (req : Request) :
  reachable w1 ->
  reachable w2 ->
  In (req_path req) handler_paths ->
  fst (handle_request req w1) = fst (handle_request req w2).
Proof.
  intros H1 H2 _.
  now rewrite (handle_request_exact req w1 (reachable_serving w1 H1)),
    (handle_request_exact req w2 (reachable_serving w2 H2)).
Qed.

(** X8.  A run of requests on /echo, /health and /ready answers every one
    of them, in order, each with the answer it would get if it were the
    only request. *)
Theorem serve_answers_each_alone (w : World) (reqs : list Request) :
  reachable w ->
  Forall (fun req => In (req_path req) handler_paths) reqs ->
  Forall2 (fun req r => fst (handle_request req w) = Ok r)
    reqs (fst (serve reqs w)).
Proof.
  intros Hr _. apply reachable_serving in Hr.
  rewrite (proj1 (serve_exact reqs w Hr)).
  induction reqs as [|req rest IH]; cbn [map]; constructor; auto.
  now rewrite (handle_request_exact req w Hr).
Qed.


Lemma wrong_method_route (req : Request) :
  (req_path req = "/echo" /\ req_method req <> "POST")
  \/ (req_path req = "/health"
      /\ req_method req <> "GET" /\ req_method req <> "HEAD")
  \/ (req_path req = "/ready" /\ req_method req <> "GET") ->
  route_for main_routes req = PARTIAL.
Proof.
  unfold main_routes, builtin_route, metrics_route, mem.
  intros [(Hp & Hm)|[(Hp & Hg & Hh)|(Hp & Hm)]];
    cbn [route_for path methods existsb]; rewrite Hp; simpl;
    repeat match goal with
    | |- context [String.eqb (req_method req) ?a] =>
        replace (String.eqb (req_method req) a) with false
          by (symmetry; apply String.eqb_neq; assumption)
    end;
    reflexivity.
Qed.

(** X9.  A request on /echo that is not a POST, on /health that is
    neither GET nor HEAD, or on /ready that is not a GET is answered 405
    and no handler runs: the state is left as it was, without a log
    call. *)
Theorem wrong_method_runs_no_handler (w : World) (req : Request) :
  reachable w ->
  (req_path req = "/echo" /\ req_method req <> "POST")
  \/ (req_path req = "/health"
      /\ req_method req <> "GET" /\ req_method req <> "HEAD")
  \/ (req_path req = "/ready" /\ req_method req <> "GET") ->
  exists r, handle_request req w = (Ok r, w) /\ status_code r = 405.
Proof.
  intros Hr H. apply reachable_serving in Hr.
  pose proof (handle_request_exact req w Hr) as E.
  unfold answer, request_events in E.
  rewrite (wrong_method_route req H) in E.
  eexists. split; [exact E|].
  unfold for_method. destruct (String.eqb _ _); reflexivity.
Qed.

(** X16.  GET /metrics is answered 200 by the metrics view that
    [setup_metrics] exposes: none of the handlers runs, no call is made on
    the logger and nothing is written. *)
Theorem metrics_scrape_is_silent (w : World) (b : option value) :
  reachable w ->
  handle_request (mkRequest "GET" "/metrics" b) w
  = (Ok (mkResponse 200 (Generated ep_metrics)), w).
Proof.
  intros Hr. apply reachable_serving in Hr.
  now rewrite (handle_request_exact _ w Hr).
Qed.

(** Whether a text is made of ASCII characters only. *)
Fixpoint is_ascii (s : string) : bool :=
  match s with
  | EmptyString => true
  | String c r => (nat_of_ascii c <? 128)%nat && is_ascii r
  end.

(** X10.  When the settings build but LOG_LEVEL, an ASCII text, is not a
    level name once put in upper case, start-up stops with the ValueError
    of [logging.basicConfig]: no application object is ever created. *)
Theorem unknown_log_level_aborts_startup (amb : Ambient)
  (decode_servers : string -> option (list (dict string)))
  (environ : list (string * string))
  (dotenv : option (list (string * option string))) (s : Settings) :
  Settings_new decode_servers environ dotenv = Ok s ->
  is_ascii (LOG_LEVEL s) = true ->
  dict_get (upper (LOG_LEVEL s)) _nameToLevel = None ->
  boot amb decode_servers environ dotenv
  = Err (ValueError (upper (LOG_LEVEL s)))
  /\ app (snd (main (fresh amb s))) = None.
Proof.
  intros Hs _ Hl. unfold boot. rewrite Hs.
  assert (E : exists w', main (fresh amb s)
                         = (Err (ValueError (upper (LOG_LEVEL s))), w')
                         /\ app w' = None).
  { eexists. split.
    - unfold main. apply bind_err.
      unfold setup_logging, basicConfig, _checkLevel, bind, get, modify,
        raise, ret.
      cbn [settings root_handlers fresh]. rewrite Hl. reflexivity.
    - reflexivity. }
  destruct E as (w' & E & Ha). rewrite E. cbn [snd]. auto.
Qed.

(** The text a setting resolves to: its override, else the default. *)
Definition configured (environ : list (string * string))
  (dotenv : option (list (string * option string)))
  (field_name default : string) : string :=
  match override_of environ dotenv field_name with
  | Some v => v
  | None => default
  end.

Lemma Settings_new_text decode_servers environ dotenv (s : Settings) :
  Settings_new decode_servers environ dotenv = Ok s ->
  APP_NAME s = configured environ dotenv "APP_NAME" "Echo Tool Server"
  /\ APP_VERSION s = configured environ dotenv "APP_VERSION" "0.1.12"
  /\ CONTACT_NAME s = configured environ dotenv "CONTACT_NAME" "API Support"
  /\ CONTACT_URL s
     = configured environ dotenv "CONTACT_URL"
         "https://www.example.com/support"
  /\ CONTACT_EMAIL s
     = configured environ dotenv "CONTACT_EMAIL" "support@example.com".
Proof.
  unfold Settings_new.
  destruct (servers_field decode_servers environ dotenv); [|discriminate].
  intros [= <-]. unfold configured, str_field.
  cbn [APP_NAME APP_VERSION CONTACT_NAME CONTACT_URL CONTACT_EMAIL].
  rewrite !source_value_override. repeat split; reflexivity.
Qed.

(** X11.  The metadata of the application object comes from the
    configuration and stays: after start-up and after any run of requests
    the title and version are the configured APP_NAME and APP_VERSION
    (override or default), the contact is made of the configured
    CONTACT_NAME, CONTACT_URL and CONTACT_EMAIL, the servers are the
    configured SERVERS, the tags are [tags_metadata]. *)
Theorem api_metadata_from_configuration (amb : Ambient)
  (decode_servers : string -> option (list (dict string)))
  (environ : list (string * string))
  (dotenv : option (list (string * option string)))
  (w : World) (reqs : list Request) :
  boot amb decode_servers environ dotenv = Ok w ->
  exists a,
    app (snd (serve reqs w)) = Some a
    /\ title a = configured environ dotenv "APP_NAME" "Echo Tool Server"
    /\ description a = "A simple echo tool for LLM agents."
    /\ version a = configured environ dotenv "APP_VERSION" "0.1.12"
    /\ contact a
       = [("name", configured environ dotenv "CONTACT_NAME" "API Support");
          ("url", configured environ dotenv "CONTACT_URL"
                    "https://www.example.com/support");
          ("email", configured environ dotenv "CONTACT_EMAIL"
                      "support@example.com")]
    /\ servers a = SERVERS (settings w)
    /\ openapi_tags a = tags_metadata.
Proof.
  intros Hb.
  destruct (boot_inv _ _ _ _ _ Hb) as (s & n & Hs & Hn & Hw).
  pose proof (started_serving amb s n w Hn Hw) as Hserving.
  destruct (serve_frame reqs w Hserving)
    as ((_ & _ & _ & _ & _ & _ & _ & _ & Fa) & _).
  destruct Hw as (_ & Hset & _ & _ & _ & _ & Ha & _).
  destruct (Settings_new_text _ _ _ _ Hs) as (E1 & E2 & E3 & E4 & E5).
  exists (served_app s). rewrite Fa, Ha, Hset.
  cbn [title description version contact servers openapi_tags served_app].
  rewrite E1, E2, E3, E4, E5. repeat split; reflexivity.
Qed.

Lemma last_binding_rename {V} (name k k' : string) (v : V)
  (l1 l2 : list (string * V)) :
  lower k = lower k' ->
  last_binding name (l1 ++ (k, v) :: l2)%list
  = last_binding name (l1 ++ (k', v) :: l2)%list.
Proof.
  intros E. induction l1 as [|[k1 v1] l1 IH]; cbn.
  - now rewrite E.
  - now rewrite IH.
Qed.

(** X12.  Setting names are matched without regard to letter case: an
    environment variable whose name is respelt in another case gives the
    same settings, or the same failure. *)
Theorem setting_names_ignore_case
  (decode_servers : string -> option (list (dict string)))
  (l1 l2 : list (string * string)) (k k' v : string)
  (dotenv : option (list (string * option string))) :
  lower k = lower k' ->
  Settings_new decode_servers (l1 ++ (k, v) :: l2)%list dotenv
  = Settings_new decode_servers (l1 ++ (k', v) :: l2)%list dotenv.
Proof.
  intros E. apply Settings_new_ext. intros f _. unfold override_of.
  now rewrite (last_binding_rename (lower f) k k' v l1 l2 E).
Qed.


(** ** Log lines are plain printable text *)

Definition printable_char (c : ascii) : bool :=
  ((32 <=? nat_of_ascii c) && (nat_of_ascii c <=? 126))%nat.

Fixpoint printable (s : string) : bool :=
  match s with
  | EmptyString => true
  | String c r => printable_char c && printable r
  end.

Lemma printable_app (a b : string) :
  printable (a ++ b) = printable a && printable b.
Proof.
  induction a as [|x a IH]; cbn [printable]; [reflexivity|].
  change (String x a ++ b) with (String x (a ++ b)). cbn [printable].
  now rewrite IH, andb_assoc.
Qed.

Lemma get_printable (s : string) (i : nat) (c : ascii) :
  printable s = true -> String.get i s = Some c -> printable_char c = true.
Proof.
  revert i. induction s as [|x s IH]; intros i Hp; cbn; [discriminate|].
  cbn [printable] in Hp. apply andb_prop in Hp as (Hx & Hs).
  destruct i as [|i].
  - now intros [= <-].
  - now apply IH.
Qed.

Lemma hex_digit_printable (n : N) : printable_char (hex_digit n) = true.
Proof.
  unfold hex_digit.
  destruct (String.get _ _) as [c|] eqn:E; [|reflexivity].
  eapply (get_printable "0123456789abcdef"); [reflexivity|exact E].
Qed.

Lemma hex4_printable (n : N) : printable (hex4 n) = true.
Proof.
  unfold hex4. cbn [printable]. now rewrite !hex_digit_printable.
Qed.

Lemma escape_code_point_printable (n : N) :
  printable (escape_code_point n) = true.
Proof.
  unfold escape_code_point. destruct (n <? 65536)%N.
  - now rewrite printable_app, hex4_printable.
  - now rewrite !printable_app, !hex4_printable.
Qed.

Lemma escape_ascii_printable (c : ascii) : printable (escape_ascii c) = true.
Proof.
  destruct c as [[] [] [] [] [] [] [] []]; vm_compute; reflexivity.
Qed.

Lemma escape_body_printable_upto (n : nat) :
  forall s, String.length s <= n -> printable (escape_body s) = true.
Proof.
  induction n as [|n IH]; intros s Hlen.
  - destruct s; simpl in *; [reflexivity|lia].
  - destruct s as [|c r]; [reflexivity|].
    simpl in Hlen. cbn [escape_body].
    assert (Hr : printable (escape_body r) = true) by (apply IH; lia).
    assert (Hone : forall b, printable
                     (escape_code_point b ++ escape_body r) = true)
      by (intros b; now rewrite printable_app, escape_code_point_printable,
            Hr).
    destruct (N_of_ascii c <? 128)%N.
    { now rewrite printable_app, escape_ascii_printable, Hr. }
    destruct ((192 <=? N_of_ascii c) && (N_of_ascii c <? 224))%N.
    { destruct r as [|c2 r2]; [apply Hone|].
      rewrite printable_app, escape_code_point_printable.
      apply IH. simpl in Hlen. lia. }
    destruct ((224 <=? N_of_ascii c) && (N_of_ascii c <? 240))%N.
    { destruct r as [|c2 [|c3 r3]]; try apply Hone.
      rewrite printable_app, escape_code_point_printable.
      apply IH. simpl in Hlen. lia. }
    destruct ((240 <=? N_of_ascii c) && (N_of_ascii c <? 248))%N.
    { destruct r as [|c2 [|c3 [|c4 r4]]]; try apply Hone.
      rewrite printable_app, escape_code_point_printable.
      apply IH. simpl in Hlen. lia. }
    apply Hone.
Qed.

Lemma encode_basestring_ascii_printable (s : string) :
  printable (encode_basestring_ascii s) = true.
Proof.
  unfold encode_basestring_ascii.
  rewrite !printable_app,
    (escape_body_printable_upto (String.length s) s) by lia.
  reflexivity.
Qed.

Lemma dumps_items_printable (d : dict string) :
  printable (dumps_items d) = true.
Proof.
  induction d as [|[k v] r IH]; [reflexivity|].
  destruct r as [|kv r'].
  - cbn [dumps_items].
    rewrite !printable_app, !encode_basestring_ascii_printable.
    reflexivity.
  - change (dumps_items ((k, v) :: kv :: r'))
      with (encode_basestring_ascii k ++ ": " ++ encode_basestring_ascii v
              ++ ", " ++ dumps_items (kv :: r')).
    rewrite !printable_app, !encode_basestring_ascii_printable, IH.
    reflexivity.
Qed.

Lemma dumps_printable (d : dict string) : printable (dumps d) = true.
Proof.
  unfold dumps. rewrite !printable_app, dumps_items_printable. reflexivity.
Qed.

(** A line of output: printable ASCII text and the line terminator. *)
Definition clean_line (line : string) : Prop :=
  exists text, line = text ++ terminator /\ printable text = true.

Lemma info_line_clean ev kw now : clean_line (info_line ev kw now).
Proof.
  eexists. split; [reflexivity|apply dumps_printable].
Qed.

Lemma log_steps_clean evs w :
  Forall clean_line (stderr w) ->
  Forall clean_line (stderr (log_steps evs w)).
Proof.
  unfold log_steps. revert w.
  induction evs as [|e r IH]; intros w Hw; cbn [fold_left]; auto.
  apply IH. rewrite log_step_stderr.
  destruct (root_level w <=? 20)%nat; auto.
  apply Forall_app. split; auto.
  repeat constructor. apply info_line_clean.
Qed.

(** X14.  Whatever text requests carry, every line the process has
    written to standard error is printable ASCII followed by one line
    terminator: control characters, quotes and characters outside ASCII
    arrive escaped, so request content cannot break or forge a log
    line. *)
Theorem log_lines_are_printable_ascii (w : World) :
  reachable w ->
  Forall (fun line =>
            exists text,
              line = text ++ terminator /\ printable text = true)
    (stderr w).
Proof.
  induction 1 as [amb dec environ dotenv w Hb | w req Hr IH].
  - destruct (boot_inv _ _ _ _ _ Hb) as (s & n & Hs & Hn & Hw).
    destruct (boot_main _ _ _ _ _ Hb) as (s' & Hs' & Hm).
    assert (s' = s) by congruence. subst s'.
    destruct (main_output amb s n w Hn Hm) as (He & _). rewrite He.
    destruct (n <=? 20)%nat; repeat constructor. apply info_line_clean.
  - rewrite (handle_request_exact req w (reachable_serving w Hr)).
    cbn [snd]. now apply log_steps_clean.
Qed.

End Pipeline.

(* ------------------------------------------------------------------ *)
(** * tests/test_echo.py *)

Module Tests.
Import Py Config Runtime Logging Lib Json Main Facts Trace.

Definition BASE_URL : string := "http://localhost:8000".

Definition HEADERS : dict string := [].

(** The rest of a text after a prefix, when it starts with it. *)
Fixpoint strip_prefix (p s : string) : option string :=
  match p, s with
  | EmptyString, _ => Some s
  | String a p', String b s' =>
      if Ascii.eqb a b then strip_prefix p' s' else None
  | String _ _, EmptyString => None
  end.

(** [httpx.<method>(url, json=..., headers=HEADERS)] against the service
    listening at [BASE_URL]: the request reaches the application with the
    path that follows the base URL.  [None] stands for a failed call. *)
Definition httpx (method url : string) (json : option value)
  : World -> option Response * World :=
  fun w =>
    match strip_prefix BASE_URL url with
    | Some p =>
        match handle_request (mkRequest method p json) w with
        | (Ok r, w') => (Some r, w')
        | (Err _, w') => (None, w')
        end
    | None => (None, w)
    end.

(** [response.json() == expected] for an expected dict of texts: the body
    is a JSON object with the same keys and the same texts under them. *)
Definition json_equals (r : Response) (expected : dict string) : bool :=
  match body r with
  | JSONBody (JDict d) =>
      (length d =? length expected)%nat
      && forallb (fun kv =>
                    match dict_get (fst kv) d with
                    | Some (JStr x) => String.eqb x (snd kv)
                    | _ => false
                    end) expected
  | _ => false
  end.

(** Each test gives whether all its assertions hold, and the state the
    service is left in. *)
Definition test_echo_successful_request (w : World) : bool * World :=
  let test_input := [("input", "Hello FastAPI")] in
  let expected_output := [("output", "Echo: Hello FastAPI")] in
  match httpx "POST" (BASE_URL ++ "/echo") (Some (jsonable test_input)) w with
  | (Some response, w') =>
      ((status_code response =? 200)%nat
       && json_equals response expected_output, w')
  | (None, w') => (false, w')
  end.

Definition test_health_check_get (w : World) : bool * World :=
  match httpx "GET" (BASE_URL ++ "/health") None w with
  | (Some response, w') => ((status_code response =? 200)%nat, w')
  | (None, w') => (false, w')
  end.

Definition test_ready_check (w : World) : bool * World :=
  match httpx "GET" (BASE_URL ++ "/ready") None w with
  | (Some response, w') =>
      ((status_code response =? 200)%nat
       && json_equals response [("status", "ok")], w')
  | (None, w') => (false, w')
  end.

Definition test_health_check_head (w : World) : bool * World :=
  match httpx "HEAD" (BASE_URL ++ "/health") None w with
  | (Some response, w') => ((status_code response =? 200)%nat, w')
  | (None, w') => (false, w')
  end.

(** The tests in the order of the file. *)
Definition suite : list (World -> bool * World) :=
  [test_echo_successful_request; test_health_check_get; test_ready_check;
   test_health_check_head].

Lemma httpx_exact (method p : string) (json : option value) (w : World) :
  serving w ->
  httpx method (BASE_URL ++ p) json w
  = (Some (answer (mkRequest method p json)),
     snd (handle_request (mkRequest method p json) w)).
Proof.
  intros Hw. unfold httpx.
  assert (E : strip_prefix BASE_URL (BASE_URL ++ p) = Some p)
    by reflexivity.
  rewrite E, (handle_request_exact _ w Hw). reflexivity.
Qed.

(** X15.  Every test of the file passes against the service in every
    state of the serving process and leaves it in such a state, so the
    tests pass in any order and any number of times. *)
Theorem tests_pass_in_every_state (w : World) :
  reachable w ->
  Forall (fun test => fst (test w) = true /\ reachable (snd (test w))) suite.
Proof.
  intros Hr. pose proof (reachable_serving w Hr) as Hw.
  unfold suite, test_echo_successful_request, test_health_check_get,
    test_ready_check, test_health_check_head.
  repeat constructor; rewrite (httpx_exact _ _ _ w Hw); cbn [fst snd];
    solve [reflexivity | apply reach_request; exact Hr].
Qed.

End Tests.

(* ------------------------------------------------------------------ *)
(** * Worked instances of the further properties *)

Module Samples.
Import Py Config Runtime Logging Lib Json Main Facts Trace Pipeline Tests.

#[local] Arguments dumps : simpl never.
#[local] Arguments isoformat : simpl never.
#[local] Arguments String.append : simpl never.
#[local] Arguments upper : simpl never.

Ltac started_from environ :=
  apply (reach_boot sample_ambient no_decoder environ None);
  vm_compute; reflexivity.

Definition verbose_environ : list (string * string) :=
  [("LOG_LEVEL", "info")].

(** The process started with LOG_LEVEL=info. *)
Definition verbose_world : World :=
  match boot sample_ambient no_decoder verbose_environ None with
  | Ok w => w
  | Err _ => fresh sample_ambient defaults
  end.

Lemma echo_logs_request_then_response_hi :
  reachable sample_world
  /\ dict_get "input" [("input", JStr "hi")] = Some (JStr "hi")
  /\ log_calls
       (snd (handle_request
               (echo_request (Some (JDict [("input", JStr "hi")])))
               sample_world))
     = (log_calls sample_world
          ++ [mkLogCall info "echo.request" [("input", "hi")];
              mkLogCall info "echo.response"
                [("output", ("Echo: " ++ "hi")%string)]])%list.
Proof.
  split; [started_from (@nil (string * string))|].
  split; [reflexivity|].
  apply (echo_logs_request_then_response sample_world
           [("input", JStr "hi")] "hi").
  - started_from (@nil (string * string)).
  - reflexivity.
Defined.

Lemma checks_log_one_event_sample :
  reachable sample_world
  /\ log_calls
       (snd (handle_request (mkRequest "GET" "/health" None) sample_world))
     = (log_calls sample_world ++ [mkLogCall info "health.check" []])%list.
Proof.
  split; [started_from (@nil (string * string))|].
  apply (checks_log_one_event sample_world None).
  started_from (@nil (string * string)).
Defined.

Lemma echo_writes_two_lines_verbose :
  reachable verbose_world
  /\ dict_get "input" [("input", JStr "hi")] = Some (JStr "hi")
  /\ _checkLevel (upper (LOG_LEVEL (settings verbose_world))) = Ok 20
  /\ 20 <= 20
  /\ length
       (stderr (snd (handle_request
                       (echo_request (Some (JDict [("input", JStr "hi")])))
                       verbose_world)))
     = 2 + length (stderr verbose_world).
Proof.
  split; [started_from verbose_environ|].
  split; [reflexivity|]. split; [vm_compute; reflexivity|].
  split; [lia|].
  rewrite (echo_writes_two_lines verbose_world [("input", JStr "hi")] "hi" 20).
  - rewrite length_app. cbn [length]. lia.
  - started_from verbose_environ.
  - reflexivity.
  - vm_compute. reflexivity.
  - lia.
Defined.

Lemma log_line_layout_error_call :
  reachable sample_world
  /\ plain_fields [("path", "/var"); ("free", "0")]
  /\ _checkLevel (upper (LOG_LEVEL (settings sample_world))) = Ok 30
  /\ 30 <= method_level error
  /\ exists w',
       logger_call error "disk.full" [("path", "/var"); ("free", "0")]
         sample_world = (Ok tt, w')
       /\ stderr w'
          = (stderr sample_world
               ++ [(dumps [("path", "/var"); ("free", "0");
                           ("event", "disk.full"); ("level", "error");
                           ("timestamp",
                            (isoformat
                               (clock (ambient sample_world)
                                  (ticks sample_world)) ++ "Z")%string)]
                     ++ terminator)%string])%list.
Proof.
  assert (Hp : plain_fields [("path", "/var"); ("free", "0")]).
  { split.
    - repeat constructor; cbn; intros H;
        repeat (destruct H as [H|H]; [discriminate H|]); exact H.
    - intros k Hk. cbn in Hk.
      destruct Hk as [<-|[<-|[]]]; split; intros Hc; cbn in Hc;
        repeat (destruct Hc as [Hc|Hc]; [discriminate Hc|]); exact Hc. }
  split; [started_from (@nil (string * string))|].
  split; [exact Hp|]. split; [vm_compute; reflexivity|].
  split; [cbn; lia|].
  apply (log_line_layout sample_world error "disk.full"
           [("path", "/var"); ("free", "0")] 30).
  - started_from (@nil (string * string)).
  - exact Hp.
  - vm_compute. reflexivity.
  - cbn. lia.
Defined.

Lemma service_logs_info_only_sample :
  reachable sample_world /\ stdout sample_world = [].
Proof.
  split; [started_from (@nil (string * string))|].
  apply (service_logs_info_only sample_world).
  started_from (@nil (string * string)).
Defined.

Lemma startup_writes_tracing_line_verbose :
  boot sample_ambient no_decoder verbose_environ None = Ok verbose_world
  /\ exists lvl,
       _checkLevel (upper (LOG_LEVEL (settings verbose_world))) = Ok lvl
       /\ log_calls verbose_world
          = [mkLogCall info (startup_message (settings verbose_world)) []].
Proof.
  split; [vm_compute; reflexivity|].
  destruct (startup_writes_tracing_line_only sample_ambient no_decoder
              verbose_environ None verbose_world)
    as (lvl & Hl & Hc & _).
  - vm_compute. reflexivity.
  - exists lvl. split; [exact Hl|exact Hc].
Defined.

Lemma answers_ignore_state_sample :
  reachable sample_world /\ reachable verbose_world
  /\ In "/echo" handler_paths
  /\ fst (handle_request
            (echo_request (Some (JDict [("input", JStr "hi")])))
            sample_world)
     = fst (handle_request
              (echo_request (Some (JDict [("input", JStr "hi")])))
              verbose_world).
Proof.
  split; [started_from (@nil (string * string))|].
  split; [started_from verbose_environ|].
  split; [cbn; tauto|].
  apply (answers_ignore_state sample_world verbose_world
           (echo_request (Some (JDict [("input", JStr "hi")])))).
  - started_from (@nil (string * string)).
  - started_from verbose_environ.
  - cbn. tauto.
Defined.

Definition sample_run : list Request :=
  [mkRequest "GET" "/health" None;
   echo_request (Some (JDict [("input", JStr "hi")]));
   mkRequest "GET" "/ready" None].

Lemma serve_answers_each_alone_sample :
  reachable sample_world
  /\ Forall (fun req => In (req_path req) handler_paths) sample_run
  /\ Forall2 (fun req r => fst (handle_request req sample_world) = Ok r)
       sample_run (fst (serve sample_run sample_world)).
Proof.
  assert (Hf : Forall (fun req => In (req_path req) handler_paths)
                 sample_run)
    by (repeat constructor; cbn; tauto).
  split; [started_from (@nil (string * string))|].
  split; [exact Hf|].
  apply (serve_answers_each_alone sample_world sample_run).
  - started_from (@nil (string * string)).
  - exact Hf.
Defined.

Lemma get_on_echo_not_allowed :
  reachable sample_world
  /\ (req_path (mkRequest "GET" "/echo" None) = "/echo"
      /\ req_method (mkRequest "GET" "/echo" None) <> "POST")
  /\ exists r,
       handle_request (mkRequest "GET" "/echo" None) sample_world
       = (Ok r, sample_world)
       /\ status_code r = 405.
Proof.
  assert (H : req_path (mkRequest "GET" "/echo" None) = "/echo"
              /\ req_method (mkRequest "GET" "/echo" None) <> "POST")
    by (split; [reflexivity|cbn; discriminate]).
  split; [started_from (@nil (string * string))|].
  split; [exact H|].
  apply (wrong_method_runs_no_handler sample_world
           (mkRequest "GET" "/echo" None)).
  - started_from (@nil (string * string)).
  - left. exact H.
Defined.

Lemma metrics_scrape_is_silent_sample :
  reachable sample_world
  /\ handle_request (mkRequest "GET" "/metrics" None) sample_world
     = (Ok (mkResponse 200 (Generated ep_metrics)), sample_world).
Proof.
  split; [started_from (@nil (string * string))|].
  apply (metrics_scrape_is_silent sample_world None).
  started_from (@nil (string * string)).
Defined.

Definition loud_settings : Settings :=
  mkSettings "Echo Tool Server" "loud" "0.1.12" "API Support"
    "https://www.example.com/support" "support@example.com"
    (SERVERS defaults) "".

Lemma unknown_log_level_loud :
  Settings_new no_decoder [("LOG_LEVEL", "loud")] None = Ok loud_settings
  /\ is_ascii (LOG_LEVEL loud_settings) = true
  /\ dict_get (upper (LOG_LEVEL loud_settings)) _nameToLevel = None
  /\ boot sample_ambient no_decoder [("LOG_LEVEL", "loud")] None
     = Err (ValueError "LOUD").
Proof.
  split; [vm_compute; reflexivity|]. split; [reflexivity|].
  split; [vm_compute; reflexivity|].
  apply (unknown_log_level_aborts_startup sample_ambient no_decoder
           [("LOG_LEVEL", "loud")] None loud_settings).
  - vm_compute. reflexivity.
  - reflexivity.
  - vm_compute. reflexivity.
Defined.

Lemma api_metadata_renamed_service :
  boot sample_ambient no_decoder [("app_name", "Parrot")] None
  = Ok match boot sample_ambient no_decoder [("app_name", "Parrot")] None
       with Ok w => w | Err _ => sample_world end
  /\ exists a,
       app (snd (serve sample_run
                   match boot sample_ambient no_decoder
                           [("app_name", "Parrot")] None
                   with Ok w => w | Err _ => sample_world end))
       = Some a
       /\ title a = "Parrot".
Proof.
  split; [vm_compute; reflexivity|].
  destruct (api_metadata_from_configuration sample_ambient no_decoder
              [("app_name", "Parrot")] None
              match boot sample_ambient no_decoder
                      [("app_name", "Parrot")] None
              with Ok w => w | Err _ => sample_world end
              sample_run)
    as (a & Ha & Ht & _).
  - vm_compute. reflexivity.
  - exists a. split; [exact Ha|]. rewrite Ht. reflexivity.
Defined.

Lemma setting_names_ignore_case_sample :
  lower "LOG_LEVEL" = lower "Log_Level"
  /\ Settings_new no_decoder [("LOG_LEVEL", "info")] None
     = Settings_new no_decoder [("Log_Level", "info")] None.
Proof.
  split; [reflexivity|].
  apply (setting_names_ignore_case no_decoder [] [] "LOG_LEVEL" "Log_Level"
           "info" None).
  reflexivity.
Defined.


Lemma log_lines_are_printable_ascii_verbose :
  reachable verbose_world
  /\ Forall (fun line =>
               exists text,
                 line = text ++ terminator /\ printable text = true)
       (stderr verbose_world).
Proof.
  split; [started_from verbose_environ|].
  apply (log_lines_are_printable_ascii verbose_world).
  started_from verbose_environ.
Defined.

Lemma tests_pass_on_sample_world :
  reachable sample_world
  /\ Forall (fun test => fst (test sample_world) = true
                         /\ reachable (snd (test sample_world))) suite.
Proof.
  split; [started_from (@nil (string * string))|].
  apply (tests_pass_in_every_state sample_world).
  started_from (@nil (string * string)).
Defined.

End Samples.
